(** * Agentic honeypot: detection, extraction and the engagement session

    A shallow embedding of the Python sources

      - [app/extraction/intel_extractor.py]  (IntelligenceExtractor)
      - [app/detection/scam_detector.py]     (ScamDetector)
      - [app/agent/ai_agent.py]              (ConversationalAgent)
      - [app/utils/session_manager.py]       (Session, SessionManager)
      - [app/main.py]                        (should_send_callback, handle_message)

    How the data is represented:

      - a Python [str] is a [string] whose characters are the code points
        U+0000..U+00FF; the character classes of the [re] module ([\w], [\d],
        [\s], [\b]) and [str.lower] are written out for that range;
      - a Python [float] is an IEEE binary64 number ([PrimFloat.float]), so
        the scores are rounded as the interpreter rounds them;
      - a Python [dict] is a [gmap], a [list] a [list], an object a record;
      - the calls that leave the process (building the OpenAI client, the
        chat completion, [random.choice], the HTTP callback) are answered by
        an environment record handed to every turn; the handler returns the
        new registry of sessions and the callback requests it posted.

    Left out: the diagnostic prints, the text of the system prompt (it only
    travels to the client), the creation time of a session and the check of
    the API key. *)

From Stdlib Require Import String Ascii List Bool Arith NArith ZArith Lia.
From Stdlib Require Import PrimFloat Uint63 SpecFloat FloatOps.
From stdpp Require Import gmap strings list fin_maps.

Set Warnings "-inexact-float".

Local Open Scope string_scope.
Local Open Scope list_scope.
Local Open Scope nat_scope.

(** ** Characters and strings *)

Module Chars.

Definition code (c : ascii) : N := N_of_ascii c.

Definition between (lo hi : N) (c : ascii) : bool :=
  ((lo <=? code c) && (code c <=? hi))%N.

Definition is_char (a c : ascii) : bool := Ascii.eqb a c.

(** [\d] on a [str] pattern: the decimal digits; below U+0100 these are 0-9. *)
Definition is_digit (c : ascii) : bool := between 48 57 c.

Definition is_upper_az (c : ascii) : bool := between 65 90 c.
Definition is_lower_az (c : ascii) : bool := between 97 122 c.

(** [\w] on a [str] pattern: alphanumeric code points and the underscore.
    Below U+0100 the alphanumerics are 0-9, A-Z, a-z, U+00AA, U+00B2, U+00B3,
    U+00B5, U+00B9, U+00BA, U+00BC-U+00BE, U+00C0-U+00D6, U+00D8-U+00F6 and
    U+00F8-U+00FF. *)
Definition is_word (c : ascii) : bool :=
  is_digit c || is_upper_az c || is_lower_az c || (code c =? 95)%N
  || (code c =? 170)%N || between 178 179 c || (code c =? 181)%N
  || between 185 186 c || between 188 190 c
  || between 192 214 c || between 216 246 c || between 248 255 c.

(** [\s] on a [str] pattern: below U+0100 these are U+0009-U+000D,
    U+001C-U+0020, U+0085 and U+00A0. *)
Definition is_space (c : ascii) : bool :=
  between 9 13 c || between 28 32 c || (code c =? 133)%N || (code c =? 160)%N.

(** [str.lower] on one character: A-Z, U+00C0-U+00D6 and U+00D8-U+00DE move
    up by 32, every other character below U+0100 is unchanged. *)
Definition lower_char (c : ascii) : ascii :=
  if is_upper_az c || between 192 214 c || between 216 222 c
  then ascii_of_N (code c + 32) else c.

Fixpoint lower (s : string) : string :=
  match s with
  | EmptyString => EmptyString
  | String c s' => String (lower_char c) (lower s')
  end.

(** [sub in s] for two [str] values. *)
Fixpoint contains (sub s : string) : bool :=
  String.prefix sub s ||
  match s with
  | EmptyString => false
  | String _ s' => contains sub s'
  end.

(** [any(w in s for w in words)] *)
Definition any_in (words : list string) (s : string) : bool :=
  existsb (fun w => contains w s) words.

End Chars.
Export Chars.

(** ** The fragment of Python's [re] the program uses

    Patterns are built from single-character classes, the word boundary
    [\b], concatenation, ordered alternation and greedy bounded repetition
    of a character class ([+], [?], [{m}], [{m,n}]).  Matching is the
    backtracking search of [re]: a repetition first takes as many characters
    as it may and gives them back one at a time, an alternation tries its
    left branch first; the first success is the match. *)

Module Re.

Inductive re : Type :=
| Chr (p : ascii -> bool)
| Bnd
| Cat (a b : re)
| Alt (a b : re)
| Rep (p : ascii -> bool) (lo : nat) (hi : option nat).

(** A literal piece of pattern text. *)
Fixpoint lit (s : string) : re :=
  match s with
  | EmptyString => Rep (fun _ => false) 0 (Some 0)
  | String c EmptyString => Chr (is_char c)
  | String c s' => Cat (Chr (is_char c)) (lit s')
  end.

Definition plus (p : ascii -> bool) : re := Rep p 1 None.
Definition opt (p : ascii -> bool) : re := Rep p 0 (Some 1).
Definition times (p : ascii -> bool) (n : nat) : re := Rep p n (Some n).

Fixpoint cat (rs : list re) : re :=
  match rs with
  | [] => Rep (fun _ => false) 0 (Some 0)
  | [r] => r
  | r :: rs' => Cat r (cat rs')
  end.

(** The matcher works at one position of the subject: [prev] is the
    character before the position (if any), [s] the characters from the
    position on, [n] the number of characters the match has taken so far.
    The continuation [k] is the rest of the pattern. *)
Definition cont : Type := option ascii -> list ascii -> nat -> option nat.

Definition word_at (o : option ascii) : bool :=
  match o with Some c => is_word c | None => false end.

(** [\b]: exactly one of the two neighbouring characters is a word
    character; a missing neighbour counts as a non-word character. *)
Definition boundary (prev : option ascii) (s : list ascii) : bool :=
  xorb (word_at prev) (word_at (head s)).

Definition may_take (hi : option nat) : bool :=
  match hi with Some 0 => false | _ => true end.

Fixpoint rep (p : ascii -> bool) (lo : nat) (hi : option nat)
    (prev : option ascii) (s : list ascii) (n : nat) (k : cont) : option nat :=
  let stop := match lo with 0 => k prev s n | S _ => None end in
  match s with
  | c :: s' =>
      if p c && may_take hi then
        match rep p (pred lo) (option_map pred hi) (Some c) s' (S n) k with
        | Some m => Some m
        | None => stop
        end
      else stop
  | [] => stop
  end.

Fixpoint run (r : re) (prev : option ascii) (s : list ascii) (n : nat)
    (k : cont) : option nat :=
  match r with
  | Chr p =>
      match s with
      | c :: s' => if p c then k (Some c) s' (S n) else None
      | [] => None
      end
  | Bnd => if boundary prev s then k prev s n else None
  | Cat a b => run a prev s n (fun prev' s' n' => run b prev' s' n' k)
  | Alt a b =>
      match run a prev s n k with
      | Some m => Some m
      | None => run b prev s n k
      end
  | Rep p lo hi => rep p lo hi prev s n k
  end.

(** The length of the match of [r] that starts at this position, if any. *)
Definition match_at (r : re) (prev : option ascii) (s : list ascii) : option nat :=
  run r prev s 0 (fun _ _ n => Some n).

(** The left-to-right scan of [re.findall]: matches do not overlap, the
    search resumes where the last match ended.  [skip] counts the characters
    of the last match still to be stepped over.  None of the patterns below
    can match the empty string; for an empty match the scan records it and
    moves on by one character. *)
Fixpoint scan (r : re) (prev : option ascii) (s : list ascii) (skip : nat)
    : list (list ascii) :=
  match skip with
  | S j =>
      match s with
      | c :: s' => scan r (Some c) s' j
      | [] => []
      end
  | 0 =>
      match match_at r prev s with
      | Some m =>
          firstn m s ::
          match s with
          | c :: s' => scan r (Some c) s' (pred m)
          | [] => []
          end
      | None =>
          match s with
          | c :: s' => scan r (Some c) s' 0
          | [] => []
          end
      end
  end.

(** [re.findall(r, text)] for a pattern without groups. *)
Definition findall (r : re) (text : string) : list string :=
  map string_of_list_ascii (scan r None (list_ascii_of_string text) 0).

(** [bool(re.search(r, text))] *)
Fixpoint search_from (r : re) (prev : option ascii) (s : list ascii) : bool :=
  match match_at r prev s with
  | Some _ => true
  | None =>
      match s with
      | c :: s' => search_from r (Some c) s'
      | [] => false
      end
  end.

Definition search (r : re) (text : string) : bool :=
  search_from r None (list_ascii_of_string text).

End Re.
Export Re.

(** ** [app/extraction/intel_extractor.py] *)

Module IntelligenceExtractor.

(** [[a-zA-Z0-9._-]] *)
Definition upi_char (c : ascii) : bool :=
  is_lower_az c || is_upper_az c || is_digit c
  || is_char "." c || is_char "_" c || is_char "-" c.

(** [\b[a-zA-Z0-9._-]+@[a-zA-Z0-9._-]+\b] *)
Definition upi_pattern : re :=
  cat [Bnd; plus upi_char; Chr (is_char "@"); plus upi_char; Bnd].

Definition upi_providers : list string :=
  ["paytm"; "phonepe"; "googlepay"; "ybl";
   "axl"; "oksbi"; "okicici"; "okhdfc";
   "gpay"; "bhim"; "upi"].

Definition extract_upi_ids (text : string) : list string :=
  filter (fun m => Is_true (any_in upi_providers (lower m)))
         (findall upi_pattern text).

Definition bank_words : list string := ["account"; "acc"; "ifsc"; "bank"].

(** [\b\d{9,18}\b] *)
Definition bank_pattern : re := cat [Bnd; Rep is_digit 9 (Some 18); Bnd].

Definition extract_bank_accounts (text : string) : list string :=
  if any_in bank_words (lower text) then findall bank_pattern text else [].

Definition upper_or_digit (c : ascii) : bool := is_upper_az c || is_digit c.

(** [\b[A-Z]{4}0[A-Z0-9]{6}\b] *)
Definition ifsc_pattern : re :=
  cat [Bnd; times is_upper_az 4; Chr (is_char "0"); times upper_or_digit 6; Bnd].

Definition extract_ifsc_codes (text : string) : list string :=
  findall ifsc_pattern text.

(** [[6-9]] *)
Definition is_6_9 (c : ascii) : bool := between 54 57 c.

(** [\b[6-9]\d{9}\b] *)
Definition phone_pattern : re := cat [Bnd; Chr is_6_9; times is_digit 9; Bnd].

Definition extract_phone_numbers (text : string) : list string :=
  findall phone_pattern text.

(** The characters a URL stops at: whitespace and the eleven characters
    < > double-quote { } | backslash ^ backquote [ ]. *)
Definition url_stop (c : ascii) : bool :=
  is_space c
  || existsb (fun n => (code c =? n)%N) [60; 62; 34; 123; 125; 124; 92; 94; 96; 91; 93]%N.

Definition url_char (c : ascii) : bool := negb (url_stop c).

(** [https?://[^\s<>...]+] *)
Definition url_pattern : re :=
  cat [lit "http"; opt (is_char "s"); lit "://"; plus url_char].

Definition extract_urls (text : string) : list string :=
  findall url_pattern text.

Definition bad_signs : list string :=
  ["bit.ly"; "tinyurl"; "goo.gl";
   "login"; "verify"; "confirm";
   ".tk"; ".ml"; ".ga"; ".cf";
   "http://"].

Definition is_suspicious_url (url : string) : bool :=
  any_in bad_signs (lower url).

(** The dictionary [extract_all] returns (the diagnostic prints are left
    out). *)
Definition extract_all (text : string) : gmap string (list string) :=
  let upi_ids := extract_upi_ids text in
  let bank_accounts := extract_bank_accounts text in
  let ifsc_codes := extract_ifsc_codes text in
  let phone_numbers := extract_phone_numbers text in
  let urls := extract_urls text in
  let suspicious_urls := filter (fun u => Is_true (is_suspicious_url u)) urls in
  <["upi_ids" := upi_ids]>
  (<["bank_accounts" := bank_accounts]>
  (<["ifsc_codes" := ifsc_codes]>
  (<["phone_numbers" := phone_numbers]>
  (<["urls" := urls]>
  (<["suspicious_urls" := suspicious_urls]> ∅))))).

End IntelligenceExtractor.
Export IntelligenceExtractor.


(** ** Python floats *)

Module PyFloat.

(** [float(n)] for a small non-negative [int]. *)
Definition of_nat (n : nat) : float :=
  PrimFloat.of_uint63 (Uint63.of_Z (Z.of_nat n)).

(** [min(a, b)] keeps its first argument unless the second is smaller. *)
Definition min (a b : float) : float :=
  if PrimFloat.ltb b a then b else a.

(** [a >= b] *)
Definition ge (a b : float) : bool := PrimFloat.leb b a.

(** Rounding of the exact quotient [num / den] to the nearest integer,
    ties to the even one ([0 <= num], [0 < den]). *)
Definition round_half_even (num den : Z) : Z :=
  let q := (num / den)%Z in
  match (2 * (num mod den) ?= den)%Z with
  | Lt => q
  | Gt => (q + 1)%Z
  | Eq => if Z.even q then q else (q + 1)%Z
  end.

(** [round(x, 2)]: the decimal with two places nearest to the exact value
    of [x] (ties to even), converted back to the nearest float. *)
Definition round2 (x : float) : float :=
  match Prim2SF x with
  | S754_finite sg m e =>
      let num := (Z.pos m * 100)%Z in
      let k := if (0 <=? e)%Z then (num * 2 ^ e)%Z
               else round_half_even num (2 ^ (- e))%Z in
      let r := (PrimFloat.of_uint63 (Uint63.of_Z k) / 100)%float in
      if sg then (- r)%float else r
  | _ => x
  end.

End PyFloat.

(** ** [app/detection/scam_detector.py] *)

Module ScamDetector.

Definition scam_keywords : list (string * list string) :=
  [("prize", ["congratulations"; "won"; "winner"; "prize"; "lottery"; "lucky draw"]);
   ("urgency", ["urgent"; "immediately"; "now"; "hurry"; "limited time"; "expires"]);
   ("money", ["claim"; "payment"; "transfer"; "send money"; "pay"; "rupees"; "rs"]);
   ("verification", ["verify"; "confirm"; "update"; "kyc"; "account"; "details"]);
   ("threat", ["blocked"; "suspended"; "unauthorized"; "fraud"; "security alert"])].

Definition confidence_threshold : float := 0.6%float.

(** [sum(1 for keyword in keywords if keyword in message)] *)
Definition matches (keywords : list string) (message : string) : nat :=
  length (filter (fun keyword => Is_true (contains keyword message)) keywords).

(** The two counters of [_check_keywords] after its loop. *)
Definition keyword_totals (message : string) : nat * nat :=
  fold_left
    (fun '(total_matches, total_keywords) '(_, keywords) =>
       (total_matches + matches keywords message,
        total_keywords + length keywords))
    scam_keywords (0, 0).

Definition _check_keywords (message : string) : float :=
  let '(total_matches, total_keywords) := keyword_totals message in
  let score :=
    if (0 <? total_keywords)%nat
    then (PyFloat.of_nat total_matches / PyFloat.of_nat total_keywords)%float
    else 0%float in
  PyFloat.min (score * 3)%float 1.0%float.

(** [http[s]?://|www\.|\.com|\.in] *)
Definition url_pattern : re :=
  Alt (cat [lit "http"; opt (is_char "s"); lit "://"])
      (Alt (lit "www.") (Alt (lit ".com") (lit ".in"))).

Definition _has_url (message : string) : bool := search url_pattern message.

(** [[\w\.-]] *)
Definition upi_char (c : ascii) : bool :=
  is_word c || is_char "." c || is_char "-" c.

(** [\b[\w\.-]+@[\w\.-]+\b] *)
Definition upi_pattern : re :=
  cat [Bnd; plus upi_char; Chr (is_char "@"); plus upi_char; Bnd].

Definition _has_upi_id (message : string) : bool :=
  existsb
    (fun m => contains "@" m && any_in ["paytm"; "phonepe"; "gpay"; "ybl"] (lower m))
    (findall upi_pattern message).

Definition _has_phone_number (message : string) : bool :=
  search IntelligenceExtractor.phone_pattern message.

(** The test of pattern 4, [re.search(r'\b\d{9,18}\b', message)]. *)
Definition has_digit_run (message : string) : bool :=
  search IntelligenceExtractor.bank_pattern message.

Definition _check_patterns (message : string) : float :=
  let score := 0.0%float in
  let score := if _has_url message then (score + 0.3)%float else score in
  let score := if _has_upi_id message then (score + 0.3)%float else score in
  let score := if _has_phone_number message then (score + 0.2)%float else score in
  let score := if has_digit_run message then (score + 0.2)%float else score in
  PyFloat.min score 1.0%float.

Definition _identify_scam_type (message : string) : string :=
  if any_in ["prize"; "won"; "lottery"; "winner"] message then "prize_scam"
  else if any_in ["verify"; "confirm"; "update"; "click"] message then "phishing"
  else if any_in ["work from home"; "earn"; "job"; "part time"] message then "job_scam"
  else if any_in ["payment"; "transfer"; "send money"] message then "payment_scam"
  else "unknown".

(** The dictionary [detect_scam] returns. *)
Record Detection := {
  is_scam : bool;
  confidence : float;
  scam_type : option string;
  message : string
}.

Definition detect_scam (message : string) : Detection :=
  let message_lower := lower message in
  let keyword_score := _check_keywords message_lower in
  let pattern_score := _check_patterns message in
  let final_score := ((keyword_score + pattern_score) / 2)%float in
  let scam_type := _identify_scam_type message_lower in
  let is_scam := PyFloat.ge final_score confidence_threshold in
  {| is_scam := is_scam;
     confidence := PyFloat.round2 final_score;
     scam_type := if is_scam then Some scam_type else None;
     message := if is_scam then "Scam detected!" else "Message seems safe" |}.

End ScamDetector.


(** ** The world outside the process

    One record answers, for one turn, every call that leaves the process:
    whether [OpenAI(api_key=...)] constructs a client, what the two
    [random.choice] calls pick, what [chat.completions.create] returns
    ([None] when the call raises) and which HTTP status the callback
    endpoint answers ([None] when [requests.post] raises).  The completion
    is taken to carry text: [llm env = Some reply] is a completion whose
    [message.content] is the string [reply]. *)

Record Env := {
  client_ok : bool;
  persona_pick : nat;
  llm : option string;
  fallback_pick : nat;
  callback_status : option nat
}.

(** ** [app/agent/ai_agent.py] *)

Module ConversationalAgent.

Record t := {
  conversation_history : list (string * string);
  all_extracted : gmap string (list string);
  persona : nat
}.

(** The roster of [_create_persona] has three entries; the agent keeps
    the index of the one [random.choice] picked. *)
Definition _create_persona (env : Env) : nat := persona_pick env mod 3.

(** [ConversationalAgent()] *)
Definition init (env : Env) : t :=
  {| conversation_history := [];
     all_extracted :=
       <["upi_ids" := []]>
       (<["bank_accounts" := []]>
       (<["phone_numbers" := []]>
       (<["urls" := []]>
       (<["suspicious_urls" := []]> ∅))));
     persona := _create_persona env |}.

(** [d.get(key, [])] *)
Definition get (key : string) (d : gmap string (list string)) : list string :=
  default [] (d !! key).

Definition merged_keys : list string :=
  ["upi_ids"; "bank_accounts"; "phone_numbers"; "urls"; "suspicious_urls"].

(** The body of the inner loop of [_update_extracted] for one [item]. *)
Definition add_item (key : string) (acc : gmap string (list string))
    (item : string) : gmap string (list string) :=
  if decide (item ∈ get key acc) then acc
  else
    let acc' := match acc !! key with
                | None => <[key := []]> acc
                | Some _ => acc
                end in
    <[key := get key acc' ++ [item]]> acc'.

Definition _update_extracted (acc new_data : gmap string (list string))
    : gmap string (list string) :=
  fold_left
    (fun acc key => fold_left (add_item key) (get key new_data) acc)
    merged_keys acc.

Definition fallback_options : list string :=
  ["Haan, theek hai! Aur batao please?";
   "Accha! Yeh interesting hai, details batao?";
   "Samajh gaya, aage kya karna hai?";
   "Theek hai bhai, mujhe thoda time do?"].

Definition _fallback (env : Env) : string :=
  nth (fallback_pick env mod 4) fallback_options "".

(** [generate_response]: the reply and the agent after the call.  The
    system prompt only travels to the client, whose answer is [llm env]. *)
Definition generate_response (env : Env) (self : t)
    (scammer_message scam_type : string) : string * t :=
  let history := conversation_history self ++ [("user", scammer_message)] in
  let extracted := extract_all scammer_message in
  let found := _update_extracted (all_extracted self) extracted in
  match llm env with
  | Some reply =>
      (reply,
       {| conversation_history := history ++ [("assistant", reply)];
          all_extracted := found;
          persona := persona self |})
  | None =>
      (_fallback env,
       {| conversation_history := history;
          all_extracted := found;
          persona := persona self |})
  end.

Definition get_extracted_intelligence (self : t) : gmap string (list string) :=
  all_extracted self.

Definition get_conversation_history (self : t) : list (string * string) :=
  conversation_history self.

(** [len([m for m in self.conversation_history if m["role"] == "user"])] *)
Definition get_turn_count (self : t) : nat :=
  length (filter (fun m => fst m = "user") (conversation_history self)).

End ConversationalAgent.

(** ** [app/utils/session_manager.py] *)

Module Session.

(** [created_at] and the unused [extracted_data] dictionary are left out. *)
Record t := {
  conversation_id : string;
  scam_detected : bool;
  confidence : float;
  scam_type : option string;
  scam_indicators : list string;
  turn_count : nat;
  agent : option ConversationalAgent.t;
  callback_sent : bool
}.

(** [Session(conversation_id)] *)
Definition init (conversation_id : string) : t :=
  {| conversation_id := conversation_id;
     scam_detected := false;
     confidence := 0.0%float;
     scam_type := None;
     scam_indicators := [];
     turn_count := 0;
     agent := None;
     callback_sent := false |}.

End Session.

Module SessionManager.

Definition create_session (sessions : gmap string Session.t) (conversation_id : string)
    : Session.t * gmap string Session.t :=
  let session := Session.init conversation_id in
  (session, <[conversation_id := session]> sessions).

Definition get_session (sessions : gmap string Session.t) (conversation_id : string)
    : option Session.t :=
  sessions !! conversation_id.

Definition get_or_create_session (sessions : gmap string Session.t)
    (conversation_id : string) : Session.t * gmap string Session.t :=
  match get_session sessions conversation_id with
  | Some session => (session, sessions)
  | None => create_session sessions conversation_id
  end.

Definition delete_session (sessions : gmap string Session.t) (conversation_id : string)
    : gmap string Session.t :=
  delete conversation_id sessions.

Definition get_active_count (sessions : gmap string Session.t) : nat :=
  size sessions.

End SessionManager.

(** ** [app/main.py] *)

Module Main.

Import Session.

(** [session.agent.get_extracted_intelligence() if session.agent else {}] *)
Definition intelligence (session : Session.t) : gmap string (list string) :=
  match agent session with
  | Some a => ConversationalAgent.get_extracted_intelligence a
  | None => ∅
  end.

(** [session.agent.get_conversation_history() if session.agent else []] *)
Definition history (session : Session.t) : list (string * string) :=
  match agent session with
  | Some a => ConversationalAgent.get_conversation_history a
  | None => []
  end.

(** The JSON body posted to the callback endpoint ([agentNotes], a
    formatted text, is left out). *)
Record Payload := {
  sessionId : string;
  scamDetected : bool;
  totalMessagesExchanged : nat;
  bankAccounts : list string;
  upiIds : list string;
  phishingLinks : list string;
  phoneNumbers : list string;
  suspiciousKeywords : list string
}.

(** [send_final_callback]: the request it posts and the boolean it
    returns ([True] exactly on status 200, [False] when the post raises). *)
Definition send_final_callback (env : Env) (session_id : string)
    (session : Session.t) : Payload * bool :=
  let intel := intelligence session in
  let total_messages :=
    length (filter (fun m => fst m = "user") (history session)) in
  ({| sessionId := session_id;
      scamDetected := scam_detected session;
      totalMessagesExchanged := total_messages;
      bankAccounts := ConversationalAgent.get "bank_accounts" intel;
      upiIds := ConversationalAgent.get "upi_ids" intel;
      phishingLinks := ConversationalAgent.get "urls" intel;
      phoneNumbers := ConversationalAgent.get "phone_numbers" intel;
      suspiciousKeywords := firstn 10 (scam_indicators session) |},
   match callback_status env with
   | Some status_code => Nat.eqb status_code 200
   | None => false
   end).

(** [sum(len(v) for v in intel.values())] *)
Definition total_items (intel : gmap string (list string)) : nat :=
  map_fold (fun _ v n => length v + n) 0 intel.

Definition should_send_callback (session : Session.t) : bool :=
  if negb (scam_detected session) then false
  else if turn_count session <? 3 then false
  else if match agent session with
          | Some a =>
              0 <? total_items (ConversationalAgent.get_extracted_intelligence a)
          | None => false
          end then true
  else if 5 <=? turn_count session then true
  else false.

Inductive Response : Type :=
| AgentResponse (status reply : string)
| HTTPException (status_code : nat).

Definition set_detection (d : ScamDetector.Detection) (s : Session.t) : Session.t :=
  {| conversation_id := conversation_id s;
     scam_detected := ScamDetector.is_scam d;
     confidence := ScamDetector.confidence d;
     scam_type := ScamDetector.scam_type d;
     scam_indicators := [];
     turn_count := turn_count s;
     agent := agent s;
     callback_sent := callback_sent s |}.

Definition set_agent (a : ConversationalAgent.t) (s : Session.t) : Session.t :=
  {| conversation_id := conversation_id s;
     scam_detected := scam_detected s;
     confidence := confidence s;
     scam_type := scam_type s;
     scam_indicators := scam_indicators s;
     turn_count := turn_count s;
     agent := Some a;
     callback_sent := callback_sent s |}.

Definition incr_turn_count (s : Session.t) : Session.t :=
  {| conversation_id := conversation_id s;
     scam_detected := scam_detected s;
     confidence := confidence s;
     scam_type := scam_type s;
     scam_indicators := scam_indicators s;
     turn_count := turn_count s + 1;
     agent := agent s;
     callback_sent := callback_sent s |}.

Definition mark_callback_sent (s : Session.t) : Session.t :=
  {| conversation_id := conversation_id s;
     scam_detected := scam_detected s;
     confidence := confidence s;
     scam_type := scam_type s;
     scam_indicators := scam_indicators s;
     turn_count := turn_count s;
     agent := agent s;
     callback_sent := true |}.

Definition neutral_reply : string :=
  "I'm sorry, I don't understand. Could you please clarify?".

(** The part of [handle_message] that answers the message: the agent's
    reply when the session is a scam, the neutral reply otherwise.  [None]
    stands for the exception [ConversationalAgent()] raises when no client
    can be built. *)
Definition respond (env : Env) (session : Session.t) (text : string)
    : option (string * Session.t) :=
  if scam_detected session then
    match match agent session with
          | Some a => Some a
          | None => if client_ok env then Some (ConversationalAgent.init env) else None
          end with
    | Some a =>
        let '(agent_reply, a') :=
          ConversationalAgent.generate_response env a text
            (default "unknown" (scam_type session)) in
        Some (agent_reply, set_agent a' session)
    | None => None
    end
  else Some (neutral_reply, session).

(** The first step of [handle_message]: a session that has counted no turn
    yet is classified from this message; [detect_scam] returns no
    ['indicators'] entry, so [scam_indicators] becomes the empty list. *)
Definition classify_first (session : Session.t) (text : string) : Session.t :=
  if turn_count session =? 0
  then set_detection (ScamDetector.detect_scam text) session
  else session.

(** [handle_message] after the API key has been verified: the response,
    the session registry afterwards, and the callback requests posted during
    the turn.  The session object lives in the registry and is changed in
    place, so every change made before an exception stays. *)
Definition handle_message (env : Env) (sessions : gmap string Session.t)
    (session_id text : string)
    : Response * gmap string Session.t * list Payload :=
  let '(session, sessions) :=
    SessionManager.get_or_create_session sessions session_id in
  let session := classify_first session text in
  match respond env session text with
  | None => (HTTPException 500, <[session_id := session]> sessions, [])
  | Some (agent_reply, session) =>
      let session := incr_turn_count session in
      if should_send_callback session then
        let '(payload, callback_sent) := send_final_callback env session_id session in
        let session := if callback_sent then mark_callback_sent session else session in
        (AgentResponse "success" agent_reply, <[session_id := session]> sessions, [payload])
      else
        (AgentResponse "success" agent_reply, <[session_id := session]> sessions, [])
  end.

(** A conversation: the turns of one run of the server, in order, each with
    the environment that answers it.  The result is the registry at the end
    and every callback request posted, oldest first. *)
Definition run_turns (turns : list (Env * string * string))
    (sessions : gmap string Session.t) : gmap string Session.t * list Payload :=
  fold_left
    (fun '(sessions, posted) '(env, session_id, text) =>
       let '(_, sessions', now) := handle_message env sessions session_id text in
       (sessions', posted ++ now))
    turns (sessions, []).

(** The dictionary [get_session_info] returns. *)
Record SessionInfo := {
  info_sessionId : string;
  info_scamDetected : bool;
  info_confidence : float;
  info_scamType : option string;
  info_turnCount : nat;
  info_callbackSent : bool;
  info_extractedIntelligence : gmap string (list string);
  info_conversationHistory : list (string * string)
}.

(** [get_session_info] after the API key has been verified; [None] is the
    404 answer "Session not found". *)
Definition get_session_info (sessions : gmap string Session.t)
    (session_id : string) : option SessionInfo :=
  match SessionManager.get_session sessions session_id with
  | None => None
  | Some session =>
      Some {| info_sessionId := session_id;
              info_scamDetected := scam_detected session;
              info_confidence := confidence session;
              info_scamType := scam_type session;
              info_turnCount := turn_count session;
              info_callbackSent := callback_sent session;
              info_extractedIntelligence := intelligence session;
              info_conversationHistory := history session |}
  end.

End Main.


(** ** Scenarios used below *)

Definition prize_message : string :=
  "Congratulations! You won Rs 50,000 in lucky draw! Send Rs 500 to 9876543210 at paytm-handle to claim. Hurry, offer expires today!".

Definition normal_message : string := "Hello, how are you? Nice weather today!".

(** The client answers and the callback endpoint returns 200. *)
Definition env_ok : Env :=
  {| client_ok := true; persona_pick := 0; llm := Some "Accha, kahan bhejun?";
     fallback_pick := 0; callback_status := Some 200 |}.

(** The client is there but [chat.completions.create] raises. *)
Definition env_llm_down : Env :=
  {| client_ok := true; persona_pick := 1; llm := None;
     fallback_pick := 2; callback_status := Some 200 |}.

(** ** Vocabulary of the properties *)

(** The loop of [_update_extracted] over the keys, for any list of keys. *)
Definition update_keys (keys : list string) (acc d : gmap string (list string))
    : gmap string (list string) :=
  fold_left
    (fun acc key =>
       fold_left (ConversationalAgent.add_item key) (ConversationalAgent.get key d) acc)
    keys acc.

(** No list of a dictionary of indicators holds a string twice. *)
Definition duplicate_free (acc : gmap string (list string)) : Prop :=
  forall key, NoDup (ConversationalAgent.get key acc).

(** The character just before a position reached by reading [pre], when
    [prev] was the character before [pre]. *)
Definition before (prev : option ascii) (pre : list ascii) : option ascii :=
  match last pre with
  | Some c => Some c
  | None => prev
  end.

(** A 10-digit number beginning with 6, 7, 8 or 9. *)
Definition mobile_shaped (num : list ascii) : bool :=
  match num with
  | d :: ds => is_6_9 d && (length ds =? 9) && forallb is_digit ds
  | [] => false
  end.

(** [num] stands alone between [pre] and [post]: the character before it
    and the character after it, where there is one, are not word characters. *)
Definition standalone (pre post : list ascii) : bool :=
  negb (word_at (last pre)) && negb (word_at (head post)).

(** The bound a repetition may still take covers [len] characters. *)
Definition fits (hi : option nat) (len : nat) : Prop :=
  match hi with Some h => len <= h | None => True end.

(** Every match of [r] lies inside the subject and is made of characters
    of the class [q]. *)
Definition made_of (r : re) (q : ascii -> bool) : Prop :=
  forall prev s m, match_at r prev s = Some m ->
    m <= length s /\ forallb q (firstn m s) = true.

(** The cumulative dictionary a turn of a scam session starts from: the
    agent's, or the empty one of the agent the turn is about to create. *)
Definition known (env : Env) (session : Session.t) : gmap string (list string) :=
  match Session.agent session with
  | Some a => ConversationalAgent.all_extracted a
  | None => ConversationalAgent.all_extracted (ConversationalAgent.init env)
  end.

(** The session has an agent, or one can be built this turn. *)
Definition client_available (env : Env) (session : Session.t) : bool :=
  match Session.agent session with
  | Some _ => true
  | None => client_ok env
  end.

(** The session a turn works on once it has been looked up (or created)
    and, on its first turn, classified. *)
Definition entering (sessions : gmap string Session.t) (session_id text : string)
    : Session.t :=
  Main.classify_first
    (fst (SessionManager.get_or_create_session sessions session_id)) text.

(** Three turns of one conversation, each answered by the client, the
    callback endpoint returning 200: the prize message, then a payment
    handle, then a phone number. *)
Definition three_turns : list (Env * string * string) :=
  [(env_ok, "s1", prize_message);
   (env_ok, "s1", "Pay to myid@phonepe");
   (env_ok, "s1", "My number is 7654321098")].

(** The same environment with another answer of the callback endpoint. *)
Definition with_callback_status (status : option nat) (env : Env) : Env :=
  {| client_ok := client_ok env;
     persona_pick := persona_pick env;
     llm := llm env;
     fallback_pick := fallback_pick env;
     callback_status := status |}.

(** The number of turns of a run addressed to one conversation. *)
Definition turns_for (session_id : string) (turns : list (Env * string * string))
    : nat :=
  length (filter (fun t => snd (fst t) = session_id) turns).

(** The turn count of a conversation in a registry, 0 when it is unknown. *)
Definition turns_counted (sessions : gmap string Session.t) (session_id : string)
    : nat :=
  match sessions !! session_id with
  | Some session => Session.turn_count session
  | None => 0
  end.

(** What holds of every session a run of the handler can produce: a
    session with an agent is a scam session whose agent has recorded one
    scammer message per counted turn, and a session without an agent is not
    a scam or has counted no turn. *)
Definition consistent (session : Session.t) : Prop :=
  match Session.agent session with
  | Some a =>
      Session.scam_detected session = true /\
      ConversationalAgent.get_turn_count a = Session.turn_count session /\
      1 <= Session.turn_count session
  | None =>
      Session.scam_detected session = false \/ Session.turn_count session = 0
  end.

(** The client cannot be built and the callback endpoint is down. *)
Definition env_no_client : Env :=
  {| client_ok := false; persona_pick := 0; llm := None;
     fallback_pick := 0; callback_status := None |}.

(** A session that is not a scam and has counted one turn. *)
Definition counted_session : Session.t :=
  {| Session.conversation_id := "s1";
     Session.scam_detected := false;
     Session.confidence := 0.0%float;
     Session.scam_type := None;
     Session.scam_indicators := [];
     Session.turn_count := 1;
     Session.agent := None;
     Session.callback_sent := false |}.

(** The final score of [detect_scam] as a function of what it depends on:
    the number of keywords of the lexicon (30 in all) found in the lower-cased
    message and the outcome of the four pattern tests. *)
Definition score (hits : nat) (url upi phone digits : bool) : float :=
  let keyword_score :=
    PyFloat.min (PyFloat.of_nat hits / PyFloat.of_nat 30 * 3)%float 1.0%float in
  let pattern_score :=
    let score := 0.0%float in
    let score := if url then (score + 0.3)%float else score in
    let score := if upi then (score + 0.3)%float else score in
    let score := if phone then (score + 0.2)%float else score in
    let score := if digits then (score + 0.2)%float else score in
    PyFloat.min score 1.0%float in
  ((keyword_score + pattern_score) / 2)%float.

(** The five names [_identify_scam_type] can return. *)
Definition scam_type_names : list string :=
  ["prize_scam"; "phishing"; "job_scam"; "payment_scam"; "unknown"].

(** The shape of an IFSC code: four capital letters, the digit 0, six
    capital letters or digits. *)
Definition ifsc_shaped (code : list ascii) : bool :=
  (length code =? 11)
  && forallb is_upper_az (firstn 4 code)
  && forallb (is_char "0") (firstn 1 (skipn 4 code))
  && forallb upper_or_digit (skipn 5 code).

(** What it means that the indicators found in [text] have been merged
    into a cumulative dictionary, said without the code that merges: every
    list of [after] is the list of [before] with something added at its end,
    and each of the five cumulative lists of [after] holds exactly the strings
    of [before] and the strings its extractor returns for [text]. *)
Definition merged_into (before after : gmap string (list string)) (text : string)
    : Prop :=
  (forall key, exists added,
     ConversationalAgent.get key after = ConversationalAgent.get key before ++ added) /\
  (forall x, x ∈ ConversationalAgent.get "upi_ids" after <->
     x ∈ ConversationalAgent.get "upi_ids" before \/ x ∈ extract_upi_ids text) /\
  (forall x, x ∈ ConversationalAgent.get "bank_accounts" after <->
     x ∈ ConversationalAgent.get "bank_accounts" before \/
     x ∈ extract_bank_accounts text) /\
  (forall x, x ∈ ConversationalAgent.get "phone_numbers" after <->
     x ∈ ConversationalAgent.get "phone_numbers" before \/
     x ∈ extract_phone_numbers text) /\
  (forall x, x ∈ ConversationalAgent.get "urls" after <->
     x ∈ ConversationalAgent.get "urls" before \/ x ∈ extract_urls text) /\
  (forall x, x ∈ ConversationalAgent.get "suspicious_urls" after <->
     x ∈ ConversationalAgent.get "suspicious_urls" before \/
     (x ∈ extract_urls text /\ is_suspicious_url x = true)).

(** The prize message followed by a bank code. *)
Definition ifsc_message : string :=
  "Congratulations! You won Rs 50,000 in lucky draw! Send Rs 500 to 9876543210 at paytm-handle to claim. Hurry, offer expires today! My bank IFSC is UTIB0000001".

(** * Properties *)

(** ** Merging into the cumulative indicators *)

Section Merge.

Import ConversationalAgent.

Implicit Types (acc d : gmap string (list string)) (key item : string).

Lemma get_add_item_same key acc item :
  get key (add_item key acc item) =
  if decide (item ∈ get key acc) then get key acc else get key acc ++ [item].
Proof.
  unfold add_item. destruct (decide (item ∈ get key acc)) as [|Hn]; [done|].
  unfold get at 1. rewrite lookup_insert_eq. simpl.
  unfold get. destruct (acc !! key) eqn:E; simpl.
  - by rewrite E.
  - by rewrite lookup_insert_eq.
Qed.

Lemma get_add_item_other key key' acc item :
  key ≠ key' -> get key' (add_item key acc item) = get key' acc.
Proof.
  intros Hne. unfold add_item.
  destruct (decide (item ∈ get key acc)); [done|].
  unfold get. rewrite lookup_insert_ne by done.
  destruct (acc !! key); [done|]. by rewrite lookup_insert_ne.
Qed.


Lemma add_item_mono key key' acc item x :
  x ∈ get key' acc -> x ∈ get key' (add_item key acc item).
Proof.
  intros H. destruct (decide (key = key')) as [->|Hne].
  - rewrite get_add_item_same. case_decide; [done|]. apply elem_of_app. by left.
  - by rewrite get_add_item_other.
Qed.

Lemma add_item_elem key acc item : item ∈ get key (add_item key acc item).
Proof.
  rewrite get_add_item_same. case_decide; [done|].
  apply elem_of_app. right. by apply list_elem_of_singleton.
Qed.

Lemma add_items_mono key key' items acc x :
  x ∈ get key' acc -> x ∈ get key' (fold_left (add_item key) items acc).
Proof.
  revert acc. induction items as [|i items IH]; intros acc H; simpl; [done|].
  apply IH. by apply add_item_mono.
Qed.

Lemma add_items_elem key items acc x :
  x ∈ items -> x ∈ get key (fold_left (add_item key) items acc).
Proof.
  revert acc. induction items as [|i items IH]; intros acc H; simpl.
  - by apply elem_of_nil in H.
  - apply elem_of_cons in H as [->|H].
    + apply add_items_mono, add_item_elem.
    + by apply IH.
Qed.


Lemma update_keys_mono keys acc d key x :
  x ∈ get key acc -> x ∈ get key (update_keys keys acc d).
Proof.
  revert acc. induction keys as [|k keys IH]; intros acc H; simpl; [done|].
  apply IH. by apply add_items_mono.
Qed.

Lemma update_keys_elem keys acc d key x :
  key ∈ keys -> x ∈ get key d -> x ∈ get key (update_keys keys acc d).
Proof.
  revert acc. induction keys as [|k keys IH]; intros acc Hk Hx; simpl.
  - by apply elem_of_nil in Hk.
  - apply elem_of_cons in Hk as [->|Hk].
    + apply update_keys_mono. by apply add_items_elem.
    + by apply IH.
Qed.



Lemma add_item_duplicate_free key acc item :
  duplicate_free acc -> duplicate_free (add_item key acc item).
Proof.
  intros H key'. destruct (decide (key = key')) as [->|Hne].
  - rewrite get_add_item_same. case_decide; [apply H|].
    apply NoDup_app. split; [apply H|]. split.
    + intros x Hx Hx'. apply list_elem_of_singleton in Hx'. by subst.
    + apply NoDup_singleton.
  - rewrite get_add_item_other by done. apply H.
Qed.

Lemma _update_extracted_duplicate_free acc d :
  duplicate_free acc -> duplicate_free (_update_extracted acc d).
Proof.
  unfold _update_extracted. generalize merged_keys as keys.
  intros keys. revert acc. induction keys as [|k keys IH]; intros acc H; simpl; [done|].
  apply IH. generalize (get k d) as items. intros items. revert acc H.
  induction items as [|i items IHi]; intros acc H; simpl; [done|].
  apply IHi. by apply add_item_duplicate_free.
Qed.

Lemma init_duplicate_free env : duplicate_free (all_extracted (init env)).
Proof.
  intros key. unfold get. simpl.
  repeat (rewrite lookup_insert; case_decide; [apply NoDup_nil_2|]).
  rewrite lookup_empty. apply NoDup_nil_2.
Qed.

End Merge.

(** ** The matcher on a run of characters *)

Section Matching.

Implicit Types (p q : ascii -> bool) (s pre run rest : list ascii) (k : cont).

Lemma before_cons prev c pre : before prev (c :: pre) = before (Some c) pre.
Proof.
  unfold before. destruct pre as [|a pre]; [reflexivity|].
  change (last (c :: a :: pre)) with (last (a :: pre)).
  destruct (last (a :: pre)) eqn:E; [reflexivity|].
  by apply last_None in E.
Qed.

Lemma before_nil prev : before prev [] = prev.
Proof. done. Qed.

Lemma is_digit_word c : is_digit c = true -> is_word c = true.
Proof. unfold is_word. intros ->. reflexivity. Qed.

Lemma is_6_9_digit c : is_6_9 c = true -> is_digit c = true.
Proof.
  unfold is_6_9, is_digit, between. rewrite !andb_true_iff, !N.leb_le. lia.
Qed.

Lemma not_word_not_digit c : is_word c = false -> is_digit c = false.
Proof.
  intros H. destruct (is_digit c) eqn:E; [|done].
  apply is_digit_word in E. congruence.
Qed.

(** Whatever a repetition of the class [p] hands to its continuation, the
    characters it took all belong to [p]. *)
Lemma rep_sound p s : forall lo hi prev n k x,
  rep p lo hi prev s n k = Some x ->
  exists j prev', j <= length s /\ forallb p (firstn j s) = true /\
                  k prev' (skipn j s) (n + j) = Some x.
Proof.
  induction s as [|c s IH]; intros lo hi prev n k x H; simpl in H.
  - destruct lo; [|done]. exists 0, prev. rewrite Nat.add_0_r. by simpl.
  - assert (Hstop : match lo with 0 => k prev (c :: s) n | S _ => None end = Some x ->
                    exists j prev', j <= length (c :: s) /\
                      forallb p (firstn j (c :: s)) = true /\
                      k prev' (skipn j (c :: s)) (n + j) = Some x).
    { destruct lo; [|done]. intros Hk. exists 0, prev.
      rewrite Nat.add_0_r. simpl. split; [lia|done]. }
    destruct (p c && may_take hi) eqn:Hp; [|by apply Hstop].
    destruct (rep p (pred lo) (option_map pred hi) (Some c) s (S n) k) as [y|] eqn:Hr;
      [|by apply Hstop].
    injection H as ->. apply IH in Hr as (j & prev' & Hj & Hall & Hk).
    apply andb_true_iff in Hp as [Hpc _].
    exists (S j), prev'. simpl. rewrite Hpc, Hall.
    replace (n + S j) with (S n + j) by lia. split; [lia|done].
Qed.

(** A greedy repetition of [p] in front of a run of [p]-characters that
    ends the subject, or is followed by a character outside [p], takes the
    whole run when the continuation accepts there. *)
Lemma rep_run p run : forall rest lo hi prev n k x,
  forallb p run = true ->
  match rest with c :: _ => p c = false | [] => True end ->
  lo <= length run -> fits hi (length run) ->
  k (before prev run) rest (n + length run) = Some x ->
  rep p lo hi prev (run ++ rest) n k = Some x.
Proof.
  induction run as [|c run IH]; intros rest lo hi prev n k x Hall Hrest Hlo Hhi Hk.
  - simpl in *. rewrite Nat.add_0_r in Hk. replace lo with 0 by lia.
    destruct rest as [|c rest]; simpl; [done|]. by rewrite Hrest.
  - simpl in Hall. apply andb_true_iff in Hall as [Hc Hall]. simpl.
    rewrite Hc. assert (may_take hi = true) as ->.
    { destruct hi as [[|h]|]; simpl in *; [lia|done|done]. }
    simpl. erewrite IH; [done|done|done| | |].
    + simpl in Hlo. lia.
    + destruct hi as [h|]; simpl in *; [lia|done].
    + rewrite before_cons in Hk. simpl in Hk.
      by replace (S n + length run) with (n + S (length run)) by lia.
Qed.

Lemma bank_pattern_made_of : made_of bank_pattern is_digit.
Proof.
  intros prev s m H. unfold match_at, bank_pattern in H. simpl in H.
  destruct (boundary prev s); [|done].
  apply rep_sound in H as (j & prev' & Hj & Hall & Hk). simpl in Hk.
  destruct (boundary prev' (skipn j s)); [|done]. by injection Hk as <-.
Qed.

Lemma phone_pattern_made_of : made_of phone_pattern is_digit.
Proof.
  intros prev s m H. unfold match_at, phone_pattern in H. simpl in H.
  destruct (boundary prev s); [|done].
  destruct s as [|c s]; [done|]. destruct (is_6_9 c) eqn:Hc; [|done].
  apply rep_sound in H as (j & prev' & Hj & Hall & Hk). simpl in Hk.
  destruct (boundary prev' (skipn j s)); [|done]. injection Hk as <-.
  simpl. rewrite (is_6_9_digit _ Hc), Hall. split; [lia|done].
Qed.

(** A 10-digit run between two non-word neighbours is matched whole by
    the account pattern and by the phone pattern. *)
Lemma mobile_shaped_digits num :
  mobile_shaped num = true ->
  exists d ds, num = d :: ds /\ is_6_9 d = true /\ length ds = 9 /\
               forallb is_digit ds = true.
Proof.
  destruct num as [|d ds]; [done|]. simpl.
  rewrite !andb_true_iff, Nat.eqb_eq. intros [[H1 H2] H3]. by exists d, ds.
Qed.

Lemma not_word_head_not_digit post :
  word_at (head post) = false ->
  match post with c :: _ => is_digit c = false | [] => True end.
Proof. destruct post as [|c post]; [done|]. simpl. apply not_word_not_digit. Qed.

Lemma boundary_after_digit run prev post :
  run <> [] -> forallb is_digit run = true -> word_at (head post) = false ->
  boundary (before prev run) post = true.
Proof.
  intros Hne Hall Hpost. unfold boundary, before. rewrite Hpost.
  destruct (last run) as [c|] eqn:E; [|by apply last_None in E].
  simpl. rewrite is_digit_word; [done|].
  rewrite forallb_forall in Hall. apply Hall.
  apply list_elem_of_In. apply last_Some in E as [l ->].
  apply elem_of_app. right. by apply list_elem_of_singleton.
Qed.

Lemma bank_pattern_at_number prev num post :
  word_at prev = false -> mobile_shaped num = true ->
  word_at (head post) = false ->
  match_at bank_pattern prev (num ++ post) = Some (length num).
Proof.
  intros Hprev Hnum Hpost.
  destruct (mobile_shaped_digits _ Hnum) as (d & ds & -> & Hd & Hlen & Hds).
  assert (Hall : forallb is_digit (d :: ds) = true).
  { simpl. by rewrite (is_6_9_digit _ Hd), Hds. }
  unfold match_at, bank_pattern. cbn [cat run].
  assert (boundary prev ((d :: ds) ++ post) = true) as ->.
  { unfold boundary. simpl. by rewrite Hprev, (is_digit_word _ (is_6_9_digit _ Hd)). }
  apply rep_run; [done|by apply not_word_head_not_digit| | |].
  - simpl. lia.
  - simpl. lia.
  - by rewrite boundary_after_digit.
Qed.

Lemma phone_pattern_at_number prev num post :
  word_at prev = false -> mobile_shaped num = true ->
  word_at (head post) = false ->
  match_at phone_pattern prev (num ++ post) = Some (length num).
Proof.
  intros Hprev Hnum Hpost.
  destruct (mobile_shaped_digits _ Hnum) as (d & ds & -> & Hd & Hlen & Hds).
  unfold match_at, phone_pattern. cbn [cat run app].
  assert (boundary prev (d :: ds ++ post) = true) as ->.
  { unfold boundary. simpl. by rewrite Hprev, (is_digit_word _ (is_6_9_digit _ Hd)). }
  rewrite Hd. unfold times.
  apply rep_run; [done|by apply not_word_head_not_digit| | |].
  - lia.
  - simpl. lia.
  - rewrite boundary_after_digit; [done| |done|done].
    destruct ds; [done|done].
Qed.

Lemma scan_start r prev s :
  scan r prev s 0 =
  match match_at r prev s with
  | Some m =>
      firstn m s ::
      match s with c :: s' => scan r (Some c) s' (pred m) | [] => [] end
  | None => match s with c :: s' => scan r (Some c) s' 0 | [] => [] end
  end.
Proof. by destruct s. Qed.

(** The scan reaches a match that starts after [pre] whenever no earlier
    match can run across the end of [pre]. *)
Lemma scan_reaches r q num post :
  made_of r q ->
  forall pre prev skip,
    skip <= length pre ->
    match last pre with Some c => q c = false | None => True end ->
    match_at r (before prev pre) (num ++ post) = Some (length num) ->
    In num (scan r prev (pre ++ num ++ post) skip).
Proof.
  intros Hr. induction pre as [|c pre IH]; intros prev skip Hskip Hlast Hm.
  - rewrite before_nil in Hm. replace skip with 0 by (simpl in Hskip; lia).
    rewrite app_nil_l, scan_start, Hm. left.
    by rewrite firstn_app, firstn_all, Nat.sub_diag, app_nil_r.
  - rewrite before_cons in Hm.
    assert (Hlast' : match last pre with Some c => q c = false | None => True end).
    { destruct pre as [|a pre]; [done|]. exact Hlast. }
    destruct skip as [|j].
    + rewrite scan_start.
      destruct (match_at r prev ((c :: pre) ++ num ++ post)) as [m|] eqn:E.
      * right. cbn [app]. apply IH; [|done|done].
        destruct (Hr _ _ _ E) as [_ Hall].
        destruct (decide (m <= length (c :: pre))) as [Hle|Hgt]; [simpl in Hle; lia|].
        exfalso.
        rewrite firstn_app, firstn_all2 in Hall by lia.
        rewrite forallb_app in Hall. apply andb_true_iff in Hall as [Hall _].
        destruct (last (c :: pre)) as [z|] eqn:El; [|by apply last_None in El].
        apply last_Some in El as [l El]. rewrite El, forallb_app in Hall.
        apply andb_true_iff in Hall as [_ Hz]. simpl in Hz. by rewrite Hlast in Hz.
      * cbn [app]. apply IH; [lia|done|done].
    + simpl. apply IH; [simpl in Hskip; lia|done|done].
Qed.

Lemma findall_reaches r q pre num post :
  made_of r q ->
  match last pre with Some c => q c = false | None => True end ->
  match_at r (last pre) (num ++ post) = Some (length num) ->
  In (string_of_list_ascii num)
     (findall r (string_of_list_ascii (pre ++ num ++ post))).
Proof.
  intros Hr Hlast Hm. unfold findall.
  rewrite list_ascii_of_string_of_list_ascii.
  apply in_map. eapply scan_reaches; [done|lia|done|].
  unfold before. by destruct (last pre).
Qed.

End Matching.

(** ** The extractor *)

Section Extractor.

Import ConversationalAgent.

Lemma get_extract_all_bank text :
  get "bank_accounts" (extract_all text) = extract_bank_accounts text.
Proof. unfold get, extract_all. by simplify_map_eq. Qed.

Lemma get_extract_all_phone text :
  get "phone_numbers" (extract_all text) = extract_phone_numbers text.
Proof. unfold get, extract_all. by simplify_map_eq. Qed.

Lemma prefix_app_l (a b s : string) :
  String.prefix (a ++ b)%string s = true -> String.prefix a s = true.
Proof.
  revert s. induction a as [|c a IH]; intros s H; [by destruct s|].
  destruct s as [|c' s]; [done|]. simpl in *.
  destruct (ascii_dec c c'); [by apply IH|done].
Qed.

Lemma contains_app_l (a b s : string) :
  contains (a ++ b)%string s = true -> contains a s = true.
Proof.
  induction s as [|c s IH]; cbn [contains]; rewrite !orb_true_iff.
  - intros [H|H]; [|done]. left. by apply prefix_app_l in H.
  - intros [H|H]; [left; by apply prefix_app_l in H|right; by apply IH].
Qed.

(** The gate of [extract_bank_accounts] is open exactly when the
    lower-cased text contains "acc", "ifsc" or "bank". *)
Lemma bank_gate text :
  any_in bank_words (lower text) = any_in ["acc"; "ifsc"; "bank"] (lower text).
Proof.
  unfold any_in, bank_words. simpl.
  destruct (contains "acc" (lower text)) eqn:E; [by rewrite orb_true_r|].
  destruct (contains "account" (lower text)) eqn:E'; [|done].
  apply (contains_app_l "acc" "ount") in E'. congruence.
Qed.

End Extractor.

(** C3, as stated, fails: the text "Please accept 123456789" contains a
    standalone run of nine digits and none of the words account, bank and
    ifsc, and [extract_bank_accounts] returns the run, because "acc" is one of
    the words of the gate. *)
Lemma C3_accept_opens_the_gate :
  any_in ["account"; "bank"; "ifsc"] (lower "Please accept 123456789") = false /\
  ScamDetector.has_digit_run "Please accept 123456789" = true /\
  extract_bank_accounts "Please accept 123456789" = ["123456789"].
Proof. by vm_compute. Qed.

(** C3, amended: for every text whose lower-cased form contains none of
    "acc", "ifsc" and "bank" (so not "account" either), the bank accounts
    [extract_bank_accounts] and [extract_all] return are empty, whatever digit
    runs the text holds. *)
Theorem C3_no_gate_word_no_bank_account (text : string) :
  any_in ["acc"; "ifsc"; "bank"] (lower text) = false ->
  extract_bank_accounts text = [] /\
  ConversationalAgent.get "bank_accounts" (extract_all text) = [].
Proof.
  intros H. rewrite get_extract_all_bank. unfold extract_bank_accounts.
  by rewrite bank_gate, H.
Qed.

Lemma C3_no_gate_word_witness :
  ScamDetector.has_digit_run "Call 123456789012 NOW" = true /\
  any_in ["acc"; "ifsc"; "bank"] (lower "Call 123456789012 NOW") = false /\
  extract_bank_accounts "Call 123456789012 NOW" = [] /\
  ConversationalAgent.get "bank_accounts" (extract_all "Call 123456789012 NOW") = [].
Proof.
  split; [by vm_compute|]. split; [by vm_compute|].
  apply (C3_no_gate_word_no_bank_account "Call 123456789012 NOW"). by vm_compute.
Defined.

(** C5: [extract_upi_ids] looks for a provider name anywhere in the match,
    not in the part after the at-sign: the address
    paytm.support@gmail.com is returned although its provider part is
    gmail.com.  The two examples of the claim come out as it says. *)
Theorem C5_provider_searched_in_whole_match :
  extract_upi_ids "Write to paytm.support@gmail.com" = ["paytm.support@gmail.com"] /\
  extract_upi_ids "Pay name@phonepe" = ["name@phonepe"] /\
  extract_upi_ids "Pay name@unknownprovider" = [].
Proof. by vm_compute. Qed.

(** C7, as stated, fails: a number written twice is returned twice. *)
Lemma C7_repeated_number_returned_twice :
  ~ NoDup (ConversationalAgent.get "phone_numbers"
             (extract_all "Call 9876543210 or 9876543210")).
Proof.
  assert (E : ConversationalAgent.get "phone_numbers"
                (extract_all "Call 9876543210 or 9876543210")
              = ["9876543210"; "9876543210"]) by (by vm_compute).
  rewrite E. intros H. apply NoDup_cons in H as [H _]. apply H. by left.
Qed.

(** C7, amended: the lists without duplicates are the cumulative ones.
    Whatever the turns an agent has answered, starting from a new agent, no
    list of its [all_extracted] dictionary holds a string twice. *)
Theorem C7_cumulative_lists_duplicate_free
    (env0 : Env) (turns : list (Env * string * string)) :
  duplicate_free
    (ConversationalAgent.all_extracted
       (fold_left
          (fun a '(env, text, scam_type) =>
             snd (ConversationalAgent.generate_response env a text scam_type))
          turns (ConversationalAgent.init env0))).
Proof.
  assert (H : forall a, duplicate_free (ConversationalAgent.all_extracted a) ->
    duplicate_free
      (ConversationalAgent.all_extracted
         (fold_left
            (fun a '(env, text, scam_type) =>
               snd (ConversationalAgent.generate_response env a text scam_type))
            turns a))).
  { induction turns as [|[[env text] scam_type] turns IH]; intros a Ha; [done|].
    simpl. apply IH. unfold ConversationalAgent.generate_response.
    destruct (llm env); simpl; by apply _update_extracted_duplicate_free. }
  apply H, init_duplicate_free.
Qed.


(** C10: a standalone 10-digit number that begins with 6, 7, 8 or 9, in a
    text that opens the gate of [extract_bank_accounts], is returned by
    [extract_all] both as a phone number and as a bank account. *)
Theorem C10_phone_number_also_bank_account (pre num post : list ascii) :
  let text := string_of_list_ascii (pre ++ num ++ post) in
  any_in bank_words (lower text) = true ->
  mobile_shaped num = true ->
  standalone pre post = true ->
  In (string_of_list_ascii num)
     (ConversationalAgent.get "phone_numbers" (extract_all text)) /\
  In (string_of_list_ascii num)
     (ConversationalAgent.get "bank_accounts" (extract_all text)).
Proof.
  intros text Hgate Hnum Hst. unfold standalone in Hst.
  apply andb_true_iff in Hst as [Hpre Hpost].
  apply negb_true_iff in Hpre, Hpost.
  assert (Hlast : match last pre with Some c => is_digit c = false | None => True end).
  { destruct (last pre) as [c|]; [|done]. by apply not_word_not_digit. }
  rewrite get_extract_all_phone, get_extract_all_bank.
  unfold extract_phone_numbers, extract_bank_accounts. rewrite Hgate. split.
  - apply (findall_reaches _ is_digit); [apply phone_pattern_made_of|done|].
    by apply phone_pattern_at_number.
  - apply (findall_reaches _ is_digit); [apply bank_pattern_made_of|done|].
    by apply bank_pattern_at_number.
Qed.

Lemma C10_phone_number_also_bank_account_witness :
  In "9876543210"
     (ConversationalAgent.get "phone_numbers"
        (extract_all "Send to bank no 9876543210, today")) /\
  In "9876543210"
     (ConversationalAgent.get "bank_accounts"
        (extract_all "Send to bank no 9876543210, today")).
Proof.
  apply (C10_phone_number_also_bank_account
           (list_ascii_of_string "Send to bank no ")
           (list_ascii_of_string "9876543210")
           (list_ascii_of_string ", today")); by vm_compute.
Defined.

(** ** The classifier *)

Section Classifier.

Import ScamDetector.

Lemma keyword_totals_lexicon message : snd (keyword_totals message) = 30.
Proof. reflexivity. Qed.

(** Without a keyword hit the keyword score is zero. *)
Lemma _check_keywords_no_hit message :
  fst (keyword_totals message) = 0 -> _check_keywords message = 0%float.
Proof.
  intros H. unfold _check_keywords.
  pose proof (keyword_totals_lexicon message) as H30.
  destruct (keyword_totals message) as [total_matches total_keywords].
  simpl in H, H30. subst. by vm_compute.
Qed.

(** With a zero keyword score the mean of the two scores stays below the
    threshold, whichever of the four patterns are present. *)
Lemma patterns_alone_below_threshold message :
  PyFloat.ge ((0 + _check_patterns message) / 2)%float confidence_threshold = false.
Proof.
  unfold _check_patterns.
  destruct (_has_url message), (_has_upi_id message),
    (_has_phone_number message), (has_digit_run message); by vm_compute.
Qed.

End Classifier.

(** C4: the prize message is classified as a scam of type prize_scam with
    a reported confidence of at least 0.6. *)
Theorem C4_prize_message_is_prize_scam :
  ScamDetector.is_scam (ScamDetector.detect_scam prize_message) = true /\
  ScamDetector.scam_type (ScamDetector.detect_scam prize_message) = Some "prize_scam" /\
  PyFloat.ge (ScamDetector.confidence (ScamDetector.detect_scam prize_message))
             0.6%float = true.
Proof. by vm_compute. Qed.

(** C6: a message that matches no keyword of the lexicon is never a scam
    and gets no scam type, whatever URL, handle, phone number or digit run it
    contains. *)
Theorem C6_no_keyword_never_scam (message : string) :
  fst (ScamDetector.keyword_totals (lower message)) = 0 ->
  ScamDetector.is_scam (ScamDetector.detect_scam message) = false /\
  ScamDetector.scam_type (ScamDetector.detect_scam message) = None.
Proof.
  intros H. unfold ScamDetector.detect_scam. simpl.
  rewrite (_check_keywords_no_hit _ H), patterns_alone_below_threshold. done.
Qed.

Lemma C6_no_keyword_never_scam_witness :
  fst (ScamDetector.keyword_totals (lower normal_message)) = 0 /\
  ScamDetector.is_scam (ScamDetector.detect_scam normal_message) = false /\
  ScamDetector.scam_type (ScamDetector.detect_scam normal_message) = None.
Proof.
  split; [by vm_compute|].
  apply (C6_no_keyword_never_scam normal_message). by vm_compute.
Defined.

(** The empty text and a text with every pattern but no keyword. *)
Example no_keyword_examples :
  ScamDetector.is_scam (ScamDetector.detect_scam "") = false /\
  ScamDetector.confidence (ScamDetector.detect_scam "") = 0%float /\
  fst (ScamDetector.keyword_totals
         (lower "see http://x.in x@ybl 9876543210")) = 0 /\
  ScamDetector._check_patterns "see http://x.in x@ybl 9876543210" = 1%float.
Proof. by vm_compute. Qed.

(** ** The turn of a conversation *)

Section Turn.

Import Session Main.

Implicit Types (env : Env) (sessions : gmap string Session.t)
  (session : Session.t) (session_id text reply : string).

Lemma should_send_callback_ignores_flag session :
  should_send_callback (mark_callback_sent session) = should_send_callback session.
Proof. reflexivity. Qed.

Lemma _fallback_in_options env :
  In (ConversationalAgent._fallback env) ConversationalAgent.fallback_options.
Proof.
  unfold ConversationalAgent._fallback.
  pose proof (Nat.mod_upper_bound (fallback_pick env) 4) as H.
  destruct (fallback_pick env mod 4) as [|[|[|[|n]]]]; simpl; auto; lia.
Qed.

(** A scam session answers through its agent, which merges what the
    extractor finds in the text, whether the client answers or raises. *)
Lemma respond_scam env session text :
  scam_detected session = true -> client_available env session = true ->
  exists reply session',
    respond env session text = Some (reply, session') /\
    (llm env = None -> In reply ConversationalAgent.fallback_options) /\
    scam_detected session' = true /\
    turn_count session' = turn_count session /\
    intelligence session' =
      ConversationalAgent._update_extracted (known env session) (extract_all text).
Proof.
  intros Hscam Hclient. unfold respond, client_available, known in *.
  rewrite Hscam.
  destruct (agent session) as [a|]; [|rewrite Hclient];
    unfold ConversationalAgent.generate_response;
    (destruct (llm env) as [r|] eqn:Hllm; eexists _, _;
     (split; [reflexivity|]); (split; [|done]); intros; [done|apply _fallback_in_options]).
Qed.

(** Any other session gets the neutral reply and is left as it is. *)
Lemma respond_not_scam env session text :
  scam_detected session = false ->
  respond env session text = Some (neutral_reply, session).
Proof. intros H. unfold respond. by rewrite H. Qed.

(** When [respond] succeeds the handler answers with its reply, and stores
    the session with one more turn counted and the same agent. *)
Lemma handle_message_answers env sessions session_id text reply session1 :
  respond env (entering sessions session_id text) text = Some (reply, session1) ->
  exists session' posted,
    handle_message env sessions session_id text =
      (AgentResponse "success" reply,
       <[session_id := session']>
         (snd (SessionManager.get_or_create_session sessions session_id)),
       posted) /\
    agent session' = agent session1 /\
    scam_detected session' = scam_detected session1 /\
    turn_count session' = turn_count session1 + 1.
Proof.
  intros H. unfold handle_message, entering in *.
  destruct (SessionManager.get_or_create_session sessions session_id) as [s0 ss].
  simpl in H. rewrite H. simpl.
  destruct (should_send_callback (incr_turn_count session1)); [|by eexists _, _].
  destruct (callback_status env) as [code|]; [destruct (code =? 200)|];
    by eexists _, _.
Qed.

Lemma respond_some_client env session text x :
  scam_detected session = true -> respond env session text = Some x ->
  client_available env session = true.
Proof.
  unfold respond, client_available. intros ->.
  destruct (agent session); [done|]. by destruct (client_ok env).
Qed.

Lemma handle_message_raises env sessions session_id text :
  respond env (entering sessions session_id text) text = None ->
  fst (fst (handle_message env sessions session_id text)) = HTTPException 500.
Proof.
  intros H. unfold handle_message, entering in *.
  destruct (SessionManager.get_or_create_session sessions session_id) as [s0 ss].
  simpl in H. by rewrite H.
Qed.

End Turn.

(** C1: the handler posts the final report again after a successful one.
    After the three turns the report has been posted once and the session is
    marked [callback_sent]; the fourth message of the same conversation posts a
    second report, because [should_send_callback] never reads the mark. *)
Theorem C1_report_posted_again_after_success :
  let '(sessions, posted) := Main.run_turns three_turns ∅ in
  length posted = 1 /\
  (Session.callback_sent <$> sessions !! "s1") = Some true /\
  let '(_, _, again) := Main.handle_message env_ok sessions "s1" "Are you there?" in
  length again = 1.
Proof. by vm_compute. Qed.

(** * Further properties of the code *)

(** ** The registry of sessions *)

(** X1: [get_or_create_session] returns the session the registry holds
    for the identifier afterwards; it leaves every other identifier alone;
    a known identifier leaves the registry as it was, an unknown one gets a
    new session (no turn counted, not a scam, no agent) and the number of
    active sessions grows by one; calling it again changes nothing. *)
Theorem X1_get_or_create_session_stores
    (sessions : gmap string Session.t) (conversation_id : string) :
  let '(session, sessions') :=
    SessionManager.get_or_create_session sessions conversation_id in
  SessionManager.get_session sessions' conversation_id = Some session /\
  (forall other, other <> conversation_id ->
     SessionManager.get_session sessions' other
     = SessionManager.get_session sessions other) /\
  (SessionManager.get_session sessions conversation_id = Some session ->
     sessions' = sessions) /\
  (SessionManager.get_session sessions conversation_id = None ->
     session = Session.init conversation_id /\
     SessionManager.get_active_count sessions'
     = S (SessionManager.get_active_count sessions)) /\
  SessionManager.get_or_create_session sessions' conversation_id
  = (session, sessions').
Proof.
  unfold SessionManager.get_or_create_session, SessionManager.create_session,
    SessionManager.get_session, SessionManager.get_active_count.
  destruct (sessions !! conversation_id) as [s|] eqn:E.
  - rewrite E. split; [done|]. split; [done|]. split; [done|].
    split; [done|]. done.
  - rewrite lookup_insert_eq. split; [done|]. split.
    { intros other Hne. by rewrite lookup_insert_ne. }
    split; [done|]. split; [|done].
    intros _. split; [done|]. by apply map_size_insert_None.
Qed.

(** X2: [delete_session] forgets exactly one conversation: the
    identifier is unknown afterwards, every other identifier is untouched,
    the count drops by one for a known identifier and an unknown identifier
    changes nothing; the next message for the identifier starts from a new
    session. *)
Theorem X2_delete_session_forgets
    (sessions : gmap string Session.t) (conversation_id : string) :
  let sessions' := SessionManager.delete_session sessions conversation_id in
  SessionManager.get_session sessions' conversation_id = None /\
  (forall other, other <> conversation_id ->
     SessionManager.get_session sessions' other
     = SessionManager.get_session sessions other) /\
  (SessionManager.get_session sessions conversation_id = None ->
     sessions' = sessions) /\
  (forall session,
     SessionManager.get_session sessions conversation_id = Some session ->
     S (SessionManager.get_active_count sessions')
     = SessionManager.get_active_count sessions) /\
  fst (SessionManager.get_or_create_session sessions' conversation_id)
  = Session.init conversation_id.
Proof.
  unfold SessionManager.delete_session, SessionManager.get_session,
    SessionManager.get_active_count, SessionManager.get_or_create_session,
    SessionManager.get_session.
  rewrite lookup_delete_eq. split; [done|]. split.
  { intros other Hne. by rewrite lookup_delete_ne. }
  split. { intros H. by apply delete_id. }
  split; [|done].
  intros session H. rewrite map_size_delete, H.
  assert (size sessions <> 0).
  { intros Hz. apply map_size_empty_iff in Hz. subst.
    by rewrite lookup_empty in H. }
  lia.
Qed.

(** X3: [create_session] always starts the conversation over: the stored
    session is the initial one whatever the registry held for the identifier,
    and the number of active sessions stays the same for a known identifier. *)
Theorem X3_create_session_resets
    (sessions : gmap string Session.t) (conversation_id : string) :
  let '(session, sessions') :=
    SessionManager.create_session sessions conversation_id in
  session = Session.init conversation_id /\
  SessionManager.get_session sessions' conversation_id
  = Some (Session.init conversation_id) /\
  (forall other, other <> conversation_id ->
     SessionManager.get_session sessions' other
     = SessionManager.get_session sessions other) /\
  (forall old, SessionManager.get_session sessions conversation_id = Some old ->
     SessionManager.get_active_count sessions'
     = SessionManager.get_active_count sessions).
Proof.
  unfold SessionManager.create_session, SessionManager.get_session,
    SessionManager.get_active_count.
  rewrite lookup_insert_eq. split; [done|]. split; [done|]. split.
  { intros other Hne. by rewrite lookup_insert_ne. }
  intros old H. by apply map_size_insert_Some.
Qed.

(** ** One turn of the handler *)

Section OneTurn.

Import Session Main.

Implicit Types (env : Env) (sessions : gmap string Session.t)
  (session : Session.t) (session_id text reply : string).

(** The handler, case by case. *)
Lemma handle_message_unfold env sessions session_id text :
  handle_message env sessions session_id text =
  let s0 := entering sessions session_id text in
  let ss := snd (SessionManager.get_or_create_session sessions session_id) in
  match respond env s0 text with
  | None => (HTTPException 500, <[session_id := s0]> ss, [])
  | Some (reply, s1) =>
      let s2 := incr_turn_count s1 in
      if should_send_callback s2 then
        (AgentResponse "success" reply,
         <[session_id := if snd (send_final_callback env session_id s2)
                         then mark_callback_sent s2 else s2]> ss,
         [fst (send_final_callback env session_id s2)])
      else (AgentResponse "success" reply, <[session_id := s2]> ss, [])
  end.
Proof.
  unfold handle_message, entering.
  destruct (SessionManager.get_or_create_session sessions session_id) as [s0 ss].
  simpl. destruct (respond env (classify_first s0 text) text) as [[r s1]|]; [|done].
  destruct (should_send_callback (incr_turn_count s1)); [|done].
  by destruct (send_final_callback env session_id (incr_turn_count s1)) as [pl ok].
Qed.

Lemma get_or_create_session_other sessions session_id other :
  other <> session_id ->
  snd (SessionManager.get_or_create_session sessions session_id) !! other
  = sessions !! other.
Proof.
  intros Hne. unfold SessionManager.get_or_create_session,
    SessionManager.create_session, SessionManager.get_session.
  destruct (sessions !! session_id); simpl; [done|]. by rewrite lookup_insert_ne.
Qed.

(** What the stored session of a turn is made of. *)
Lemma respond_fields env session text reply session' :
  respond env session text = Some (reply, session') ->
  scam_detected session' = scam_detected session /\
  confidence session' = confidence session /\
  scam_type session' = scam_type session /\
  turn_count session' = turn_count session /\
  callback_sent session' = callback_sent session.
Proof.
  unfold respond. destruct (scam_detected session) eqn:Hs.
  - destruct (match agent session with
              | Some a => Some a
              | None => if client_ok env
                        then Some (ConversationalAgent.init env) else None
              end) as [a|]; [|done].
    destruct (ConversationalAgent.generate_response env a text
                (default "unknown" (scam_type session))) as [r a'].
    intros [= <- <-]. by simpl.
  - intros [= <- <-]. by rewrite Hs.
Qed.

(** When [should_send_callback] says yes. *)
Lemma should_send_callback_due session :
  should_send_callback session = true <->
  scam_detected session = true /\ 3 <= turn_count session /\
  (0 < total_items (intelligence session) \/ 5 <= turn_count session).
Proof.
  unfold should_send_callback, intelligence,
    ConversationalAgent.get_extracted_intelligence.
  destruct (scam_detected session); cbn [negb]; [|intuition congruence].
  destruct (Nat.ltb_spec (turn_count session) 3) as [E3|E3];
    [intuition (try congruence; try lia)|].
  destruct (agent session) as [a|].
  - destruct (Nat.ltb_spec 0 (total_items (ConversationalAgent.all_extracted a)))
      as [E0|E0]; [intuition|].
    destruct (Nat.leb_spec 5 (turn_count session)) as [E5|E5];
      [intuition|intuition (try congruence; try lia)].
  - unfold total_items. rewrite map_fold_empty.
    destruct (Nat.leb_spec 5 (turn_count session)) as [E5|E5];
      [intuition|intuition (try congruence; try lia)].
Qed.

End OneTurn.

Lemma handle_message_other
    (env : Env) (sessions : gmap string Session.t)
    (session_id text other : string) :
  other <> session_id ->
  snd (fst (Main.handle_message env sessions session_id text)) !! other
  = sessions !! other.
Proof.
  intros Hne. rewrite handle_message_unfold. cbv zeta.
  destruct (Main.respond env (entering sessions session_id text) text)
    as [[r s1]|]; [destruct (Main.should_send_callback (Main.incr_turn_count s1))|];
    simpl; rewrite lookup_insert_ne by done;
    by apply get_or_create_session_other.
Qed.

(** X4: a turn only touches the session of its own conversation: the
    registry entry of every other identifier is the same before and after,
    whatever the outcome of the turn. *)
Theorem X4_turn_leaves_other_sessions_alone
    (env : Env) (sessions : gmap string Session.t)
    (session_id text other : string) :
  other <> session_id ->
  snd (fst (Main.handle_message env sessions session_id text)) !! other
  = sessions !! other.
Proof. apply handle_message_other. Qed.

Lemma X4_turn_leaves_other_sessions_alone_witness :
  snd (fst (Main.handle_message env_ok {["s1" := counted_session]}
              "s2" prize_message)) !! "s1"
  = ({["s1" := counted_session]} : gmap string Session.t) !! "s1".
Proof.
  apply (X4_turn_leaves_other_sessions_alone env_ok
           {["s1" := counted_session]} "s2" prize_message "s1").
  discriminate.
Defined.

(** X5: on a turn whose session is not a scam the handler returns the
    neutral reply, posts no report and stores the session the turn works on
    with one more turn counted.  For a session that had counted a turn
    already that session is the stored one, so nothing else in the registry
    changes; for a session that has counted no turn it is the stored (or new)
    session with the classification of this message written into it. *)
Theorem X5_not_scam_turn_only_counts
    (env : Env) (sessions : gmap string Session.t) (session_id text : string) :
  Session.scam_detected (entering sessions session_id text) = false ->
  Main.handle_message env sessions session_id text
  = (Main.AgentResponse "success" Main.neutral_reply,
     <[session_id := Main.incr_turn_count (entering sessions session_id text)]>
       (snd (SessionManager.get_or_create_session sessions session_id)),
     []) /\
  (forall session,
     sessions !! session_id = Some session -> 0 < Session.turn_count session ->
     entering sessions session_id text = session /\
     snd (SessionManager.get_or_create_session sessions session_id) = sessions) /\
  (turns_counted sessions session_id = 0 ->
     entering sessions session_id text
     = Main.set_detection (ScamDetector.detect_scam text)
         (default (Session.init session_id) (sessions !! session_id))).
Proof.
  intros H. split; [|split].
  - rewrite handle_message_unfold. cbv zeta.
    rewrite (respond_not_scam _ _ _ H).
    assert (Main.should_send_callback
              (Main.incr_turn_count (entering sessions session_id text)) = false)
      as ->; [|done].
    unfold Main.should_send_callback. simpl. by rewrite H.
  - intros session Hs Hpos.
    unfold entering, SessionManager.get_or_create_session,
      SessionManager.get_session, Main.classify_first.
    rewrite Hs. simpl. split; [|done].
    destruct (Nat.eqb_spec (Session.turn_count session) 0); [lia|done].
  - unfold turns_counted, entering, SessionManager.get_or_create_session,
      SessionManager.get_session, SessionManager.create_session,
      Main.classify_first.
    destruct (sessions !! session_id) as [s|]; simpl; [|done].
    by intros ->.
Qed.

Lemma X5_not_scam_turn_only_counts_witness :
  Main.handle_message env_ok {["s1" := counted_session]} "s1" prize_message
  = (Main.AgentResponse "success" Main.neutral_reply,
     <["s1" := Main.incr_turn_count
                 (entering {["s1" := counted_session]} "s1" prize_message)]>
       (snd (SessionManager.get_or_create_session
               {["s1" := counted_session]} "s1")),
     []) /\
  (forall session,
     ({["s1" := counted_session]} : gmap string Session.t) !! "s1" = Some session ->
     0 < Session.turn_count session ->
     entering {["s1" := counted_session]} "s1" prize_message = session /\
     snd (SessionManager.get_or_create_session {["s1" := counted_session]} "s1")
     = {["s1" := counted_session]}) /\
  (turns_counted {["s1" := counted_session]} "s1" = 0 ->
     entering {["s1" := counted_session]} "s1" prize_message
     = Main.set_detection (ScamDetector.detect_scam prize_message)
         (default (Session.init "s1")
            (({["s1" := counted_session]} : gmap string Session.t) !! "s1"))).
Proof.
  apply (X5_not_scam_turn_only_counts env_ok {["s1" := counted_session]}
           "s1" prize_message).
  by vm_compute.
Defined.

(** X6: a turn posts at most one report, and it posts one exactly when it
    is answered and the stored session is a scam session with at least three
    turns counted and either some extracted item or at least five turns. *)
Theorem X6_report_posted_exactly_when_due
    (env : Env) (sessions : gmap string Session.t) (session_id text : string)
    (status reply : string) (sessions' : gmap string Session.t)
    (posted : list Main.Payload) :
  Main.handle_message env sessions session_id text
    = (Main.AgentResponse status reply, sessions', posted) ->
  exists session',
    sessions' !! session_id = Some session' /\
    length posted <= 1 /\
    (posted <> [] <->
     Session.scam_detected session' = true /\
     3 <= Session.turn_count session' /\
     (0 < Main.total_items (Main.intelligence session') \/
      5 <= Session.turn_count session')).
Proof.
  rewrite handle_message_unfold. cbv zeta.
  destruct (Main.respond env (entering sessions session_id text) text)
    as [[r s1]|]; [|done].
  set (s2 := Main.incr_turn_count s1).
  pose proof should_send_callback_due as Hdue.
  destruct (Main.should_send_callback s2) eqn:Hs.
  - destruct (snd (Main.send_final_callback env session_id s2)) eqn:Hcb;
      intros [= _ _ <- <-].
    + exists (Main.mark_callback_sent s2).
      split; [apply lookup_insert_eq|]. split; [simpl; lia|].
      split; [intros _|done].
      apply Hdue. by rewrite should_send_callback_ignores_flag.
    + exists s2. split; [apply lookup_insert_eq|]. split; [simpl; lia|].
      split; [intros _|done]. by apply Hdue.
  - intros [= _ _ <- <-]. exists s2.
    split; [apply lookup_insert_eq|]. split; [simpl; lia|].
    split; [done|]. intros H. apply Hdue in H. congruence.
Qed.

Lemma X6_report_posted_exactly_when_due_witness :
  exists session',
    snd (fst (Main.handle_message env_ok ∅ "s1" prize_message)) !! "s1"
      = Some session' /\
    length (snd (Main.handle_message env_ok ∅ "s1" prize_message)) <= 1 /\
    (snd (Main.handle_message env_ok ∅ "s1" prize_message) <> [] <->
     Session.scam_detected session' = true /\
     3 <= Session.turn_count session' /\
     (0 < Main.total_items (Main.intelligence session') \/
      5 <= Session.turn_count session')).
Proof.
  apply (X6_report_posted_exactly_when_due env_ok ∅ "s1" prize_message
           "success" "Accha, kahan bhejun?").
  by vm_compute.
Defined.

Section StoredSession.

Import Session Main.

Implicit Types (env : Env) (sessions : gmap string Session.t)
  (session : Session.t) (session_id text reply : string).

(** The session a turn starts from is the one the registry holds, when it
    has counted a turn already. *)
Lemma entering_known sessions session_id text session :
  sessions !! session_id = Some session -> 0 < turn_count session ->
  entering sessions session_id text = session.
Proof.
  intros H Hpos. unfold entering, SessionManager.get_or_create_session,
    SessionManager.get_session, classify_first. rewrite H. simpl.
  destruct (Nat.eqb_spec (turn_count session) 0); [lia|done].
Qed.

Lemma entering_turn_count sessions session_id text :
  turn_count (entering sessions session_id text) = turns_counted sessions session_id.
Proof.
  unfold entering, SessionManager.get_or_create_session,
    SessionManager.get_session, SessionManager.create_session,
    classify_first, turns_counted.
  destruct (sessions !! session_id) as [s|]; simpl; [|done].
  by destruct (turn_count s =? 0).
Qed.

Lemma entering_callback_sent sessions session_id text :
  callback_sent (entering sessions session_id text)
  = match sessions !! session_id with
    | Some session => callback_sent session
    | None => false
    end.
Proof.
  unfold entering, SessionManager.get_or_create_session,
    SessionManager.get_session, SessionManager.create_session, classify_first.
  destruct (sessions !! session_id) as [s|]; simpl; [|done].
  by destruct (turn_count s =? 0).
Qed.

(** The stored session of a turn against the session the turn started
    from. *)
Lemma handle_message_stored env sessions session_id text :
  let s0 := entering sessions session_id text in
  let result := handle_message env sessions session_id text in
  exists session',
    snd (fst result) !! session_id = Some session' /\
    scam_detected session' = scam_detected s0 /\
    confidence session' = confidence s0 /\
    scam_type session' = scam_type s0 /\
    turn_count session' =
      turn_count s0 + match respond env s0 text with Some _ => 1 | None => 0 end /\
    callback_sent session' =
      callback_sent s0
      || (match snd result with [] => false | _ :: _ => true end &&
          match callback_status env with
          | Some status_code => status_code =? 200
          | None => false
          end).
Proof.
  intros s0 result. unfold result. rewrite handle_message_unfold. cbv zeta.
  fold s0. destruct (respond env s0 text) as [[r s1]|] eqn:E.
  - apply respond_fields in E as (H1 & H2 & H3 & H4 & H5).
    destruct (should_send_callback (incr_turn_count s1)).
    + simpl. destruct (callback_status env) as [code|];
        [destruct (code =? 200)|]; eexists;
        (split; [apply lookup_insert_eq|]); simpl;
        rewrite ?H1, ?H2, ?H3, ?H4, ?H5, ?orb_true_r, ?orb_false_r; done.
    + eexists. split; [apply lookup_insert_eq|]. simpl.
      rewrite ?H1, ?H2, ?H3, ?H4, ?H5, ?orb_false_r. done.
  - eexists. split; [apply lookup_insert_eq|]. simpl.
    rewrite Nat.add_0_r, orb_false_r. done.
Qed.

Lemma respond_client_ok env session text :
  client_ok env = true -> respond env session text <> None.
Proof.
  intros H. unfold respond. rewrite H.
  destruct (scam_detected session); [|done].
  destruct (agent session);
    by destruct (ConversationalAgent.generate_response _ _ _ _).
Qed.

End StoredSession.

(** X7: a conversation is classified once.  For a session that has
    counted a turn, a further message, whatever it says, leaves the verdict,
    the confidence and the scam type as they were. *)
Theorem X7_later_messages_keep_the_verdict
    (env : Env) (sessions : gmap string Session.t) (session_id text : string)
    (session : Session.t) :
  sessions !! session_id = Some session ->
  0 < Session.turn_count session ->
  exists session',
    snd (fst (Main.handle_message env sessions session_id text)) !! session_id
      = Some session' /\
    Session.scam_detected session' = Session.scam_detected session /\
    Session.confidence session' = Session.confidence session /\
    Session.scam_type session' = Session.scam_type session.
Proof.
  intros H Hpos.
  destruct (handle_message_stored env sessions session_id text)
    as (s' & Hs' & H1 & H2 & H3 & _).
  rewrite (entering_known _ _ _ _ H Hpos) in H1, H2, H3. by exists s'.
Qed.

Lemma X7_later_messages_keep_the_verdict_witness :
  exists session',
    snd (fst (Main.handle_message env_ok {["s1" := counted_session]}
                "s1" prize_message)) !! "s1" = Some session' /\
    Session.scam_detected session' = Session.scam_detected counted_session /\
    Session.confidence session' = Session.confidence counted_session /\
    Session.scam_type session' = Session.scam_type counted_session.
Proof.
  apply (X7_later_messages_keep_the_verdict env_ok {["s1" := counted_session]}
           "s1" prize_message counted_session).
  - by vm_compute.
  - vm_compute. lia.
Defined.

(** X8: the mark [callback_sent] is set by a turn exactly when the turn
    posted a report and the endpoint answered 200; a mark that is set stays
    set, and any other status, or an exception of the post, leaves the mark
    as it was. *)
Theorem X8_callback_sent_only_on_200
    (env : Env) (sessions : gmap string Session.t) (session_id text : string) :
  let result := Main.handle_message env sessions session_id text in
  exists session',
    snd (fst result) !! session_id = Some session' /\
    (Session.callback_sent session' = true <->
     (exists session, sessions !! session_id = Some session /\
                      Session.callback_sent session = true) \/
     (snd result <> [] /\ callback_status env = Some 200)).
Proof.
  intros result.
  destruct (handle_message_stored env sessions session_id text)
    as (s' & Hs' & _ & _ & _ & _ & Hcb).
  exists s'. split; [exact Hs'|]. fold result in Hcb. rewrite Hcb.
  rewrite entering_callback_sent, orb_true_iff, andb_true_iff.
  assert (Hposted : match snd result with [] => false | _ :: _ => true end = true
                    <-> snd result <> []).
  { destruct (snd result); simpl; split; congruence. }
  assert (Hstatus : match callback_status env with
                    | Some status_code => status_code =? 200
                    | None => false
                    end = true <-> callback_status env = Some 200).
  { destruct (callback_status env) as [code|]; [|split; congruence].
    rewrite Nat.eqb_eq. split; congruence. }
  rewrite Hposted, Hstatus. split.
  - intros [H|H]; [left|by right].
    destruct (sessions !! session_id) as [s|]; [by exists s|done].
  - intros [(s & -> & H)|H]; [by left|by right].
Qed.

(** X9: what the callback endpoint answers never reaches the scammer or
    the conversation: with any other answer of the endpoint the response of
    the turn, the report it posts, and the stored turn count, verdict and
    agent are the same. *)
Theorem X9_callback_outcome_stays_inside
    (env : Env) (status : option nat) (sessions : gmap string Session.t)
    (session_id text : string) :
  let result := Main.handle_message env sessions session_id text in
  let result' :=
    Main.handle_message (with_callback_status status env) sessions session_id text in
  fst (fst result') = fst (fst result) /\
  snd result' = snd result /\
  (Session.turn_count <$> snd (fst result') !! session_id)
  = (Session.turn_count <$> snd (fst result) !! session_id) /\
  (Session.scam_detected <$> snd (fst result') !! session_id)
  = (Session.scam_detected <$> snd (fst result) !! session_id) /\
  (Session.agent <$> snd (fst result') !! session_id)
  = (Session.agent <$> snd (fst result) !! session_id).
Proof.
  intros result result'. unfold result, result'.
  rewrite !handle_message_unfold. cbv zeta.
  change (Main.respond (with_callback_status status env)
            (entering sessions session_id text) text)
    with (Main.respond env (entering sessions session_id text) text).
  destruct (Main.respond env (entering sessions session_id text) text)
    as [[r s1]|]; [|done].
  destruct (Main.should_send_callback (Main.incr_turn_count s1)); [|done].
  simpl. rewrite !lookup_insert_eq. simpl.
  destruct status as [code|]; [destruct (code =? 200)|];
    (destruct (callback_status env) as [code'|]; [destruct (code' =? 200)|]);
    done.
Qed.

(** X10: when a scam session has no agent and no client can be built, the
    turn fails with status 500: no reply, no report, and the stored session
    is the one the turn started from, so the turn is not counted. *)
Theorem X10_no_client_no_turn
    (env : Env) (sessions : gmap string Session.t) (session_id text : string) :
  Session.scam_detected (entering sessions session_id text) = true ->
  client_available env (entering sessions session_id text) = false ->
  Main.handle_message env sessions session_id text
  = (Main.HTTPException 500,
     <[session_id := entering sessions session_id text]>
       (snd (SessionManager.get_or_create_session sessions session_id)),
     []).
Proof.
  intros Hscam Hclient. rewrite handle_message_unfold. cbv zeta.
  assert (Main.respond env (entering sessions session_id text) text = None) as ->;
    [|done].
  unfold Main.respond, client_available in *. rewrite Hscam.
  destruct (Session.agent (entering sessions session_id text)); [done|].
  by rewrite Hclient.
Qed.

Lemma X10_no_client_no_turn_witness :
  Main.handle_message env_no_client ∅ "s1" prize_message
  = (Main.HTTPException 500,
     <["s1" := entering ∅ "s1" prize_message]>
       (snd (SessionManager.get_or_create_session ∅ "s1")),
     []).
Proof.
  apply (X10_no_client_no_turn env_no_client ∅ "s1" prize_message);
    by vm_compute.
Defined.

(** ** Runs of the handler *)

Section Runs.

Import Session Main.

Implicit Types (env : Env) (sessions : gmap string Session.t)
  (session : Session.t) (session_id text : string)
  (turns : list (Env * string * string)).

(** A run, turn by turn. *)
Lemma run_turns_from turns : forall sessions posted,
  fold_left
    (fun '(sessions, posted) '(env, session_id, text) =>
       let '(_, sessions', now) := handle_message env sessions session_id text in
       (sessions', posted ++ now))
    turns (sessions, posted)
  = (fst (run_turns turns sessions), posted ++ snd (run_turns turns sessions)).
Proof.
  induction turns as [|[[env id] text] turns IH]; intros sessions posted.
  - unfold run_turns. simpl. by rewrite app_nil_r.
  - unfold run_turns. simpl.
    destruct (handle_message env sessions id text) as [[resp ss] now].
    rewrite (IH ss (posted ++ now)), (IH ss now). simpl. by rewrite app_assoc.
Qed.

Lemma run_turns_cons env session_id text turns sessions :
  run_turns ((env, session_id, text) :: turns) sessions
  = let result := handle_message env sessions session_id text in
    (fst (run_turns turns (snd (fst result))),
     snd result ++ snd (run_turns turns (snd (fst result)))).
Proof.
  unfold run_turns at 1. simpl.
  destruct (handle_message env sessions session_id text) as [[resp ss] now].
  by rewrite run_turns_from.
Qed.

(** The turn count of the conversation after one turn. *)
Lemma handle_message_counts env sessions session_id text :
  client_ok env = true ->
  turns_counted (snd (fst (handle_message env sessions session_id text))) session_id
  = turns_counted sessions session_id + 1.
Proof.
  intros Hok.
  destruct (handle_message_stored env sessions session_id text)
    as (s' & Hs' & _ & _ & _ & Hcount & _).
  unfold turns_counted at 1. rewrite Hs', Hcount, entering_turn_count.
  pose proof (respond_client_ok env (entering sessions session_id text) text Hok).
  by destruct (respond env (entering sessions session_id text) text).
Qed.

Lemma get_turn_count_user (a : ConversationalAgent.t) text rest :
  (forall m, m ∈ rest -> fst m <> "user") ->
  length (filter (fun m => fst m = "user")
            ((ConversationalAgent.conversation_history a ++ [("user", text)]) ++ rest))
  = S (ConversationalAgent.get_turn_count a).
Proof.
  intros Hrest. unfold ConversationalAgent.get_turn_count.
  rewrite !filter_app, !length_app.
  rewrite (filter_cons_True (fun m : string * string => fst m = "user")) by done.
  assert (filter (fun m : string * string => fst m = "user") rest = []) as ->.
  { induction rest as [|m rest IH]; [done|].
    rewrite filter_cons_False by (apply Hrest; left).
    apply IH. intros m' Hm'. apply Hrest. by right. }
  simpl. lia.
Qed.

Lemma generate_response_turn_count env (a : ConversationalAgent.t) text scam_type :
  ConversationalAgent.get_turn_count
    (snd (ConversationalAgent.generate_response env a text scam_type))
  = S (ConversationalAgent.get_turn_count a).
Proof.
  unfold ConversationalAgent.generate_response.
  destruct (llm env) as [reply|]; simpl;
    unfold ConversationalAgent.get_turn_count at 1; simpl.
  - apply get_turn_count_user. intros m Hm.
    apply list_elem_of_singleton in Hm. by subst.
  - rewrite <- (app_nil_r (_ ++ [_])). apply get_turn_count_user.
    intros m Hm. by apply elem_of_nil in Hm.
Qed.

Lemma init_turn_count env :
  ConversationalAgent.get_turn_count (ConversationalAgent.init env) = 0.
Proof. reflexivity. Qed.

Lemma init_consistent session_id : consistent (Session.init session_id).
Proof. by left. Qed.

Lemma entering_consistent sessions session_id text :
  map_Forall (fun _ session => consistent session) sessions ->
  consistent (entering sessions session_id text).
Proof.
  intros Hall. unfold entering, SessionManager.get_or_create_session,
    SessionManager.get_session, SessionManager.create_session, classify_first.
  destruct (sessions !! session_id) as [s|] eqn:E; simpl.
  - specialize (Hall _ _ E). unfold consistent in *.
    destruct (Nat.eqb_spec (turn_count s) 0) as [Hz|Hnz]; [|done]. simpl.
    destruct (agent s); [lia|by right].
  - by right.
Qed.

(** One turn keeps a consistent session consistent, and the report it
    posts, if any, says scam and counts the turns of the session. *)
Lemma turn_consistent env sessions session_id text :
  consistent (entering sessions session_id text) ->
  let result := handle_message env sessions session_id text in
  (exists session', snd (fst result) !! session_id = Some session' /\
                    consistent session') /\
  (forall payload, payload ∈ snd result ->
     sessionId payload = session_id /\ scamDetected payload = true /\
     totalMessagesExchanged payload
     = turns_counted (snd (fst result)) session_id /\
     3 <= totalMessagesExchanged payload).
Proof.
  intros Hc result. unfold result. rewrite handle_message_unfold. cbv zeta.
  set (s0 := entering sessions session_id text) in *.
  destruct (respond env s0 text) as [[r s1]|] eqn:E.
  - assert (Hc1 : consistent (incr_turn_count s1)).
    { unfold respond in E. unfold consistent in *.
      destruct (scam_detected s0) eqn:Hs.
      - destruct (agent s0) as [a|] eqn:Ha.
        + destruct Hc as (_ & Hn & Hpos).
          destruct (ConversationalAgent.generate_response env a text
                      (default "unknown" (scam_type s0))) as [r' a'] eqn:G.
          injection E as <- <-. simpl. rewrite Hs.
          replace a' with (snd (ConversationalAgent.generate_response env a text
                                  (default "unknown" (scam_type s0))))
            by (by rewrite G).
          rewrite generate_response_turn_count. lia.
        + destruct Hc as [Hc|Hc]; [congruence|].
          destruct (client_ok env); [|done].
          destruct (ConversationalAgent.generate_response env
                      (ConversationalAgent.init env) text
                      (default "unknown" (scam_type s0))) as [r' a'] eqn:G.
          injection E as <- <-. simpl. rewrite Hs.
          replace a' with (snd (ConversationalAgent.generate_response env
                                  (ConversationalAgent.init env) text
                                  (default "unknown" (scam_type s0))))
            by (by rewrite G).
          rewrite generate_response_turn_count, init_turn_count. lia.
      - injection E as <- <-. simpl. rewrite Hs.
        destruct (agent s0); [destruct Hc; congruence|by left]. }
    destruct (should_send_callback (incr_turn_count s1)) eqn:Hdue.
    + simpl. split.
      * eexists. split; [apply lookup_insert_eq|].
        by destruct (match callback_status env with
                     | Some status_code => status_code =? 200
                     | None => false
                     end).
      * intros payload Hp. apply list_elem_of_singleton in Hp. subst payload.
        simpl. apply should_send_callback_due in Hdue as (Hscam & H3 & _).
        unfold turns_counted. rewrite lookup_insert_eq.
        assert (Hturns : length (filter (fun m => fst m = "user")
                                   (history (incr_turn_count s1)))
                         = turn_count (incr_turn_count s1)).
        { unfold consistent in Hc1. unfold history.
          destruct (agent (incr_turn_count s1)) as [a|];
            [by destruct Hc1 as (_ & Hn & _)|].
          destruct Hc1 as [Hc1|Hc1]; [congruence|lia]. }
        rewrite Hturns. split; [done|]. split; [done|]. split; [|done].
        by destruct (match callback_status env with
                     | Some status_code => status_code =? 200
                     | None => false
                     end).
    + simpl. split; [eexists; split; [apply lookup_insert_eq|done]|].
      intros payload Hp. by apply elem_of_nil in Hp.
  - simpl. split; [eexists; split; [apply lookup_insert_eq|done]|].
    intros payload Hp. by apply elem_of_nil in Hp.
Qed.

Lemma handle_message_all_consistent env sessions session_id text :
  map_Forall (fun _ session => consistent session) sessions ->
  map_Forall (fun _ session => consistent session)
    (snd (fst (handle_message env sessions session_id text))).
Proof.
  intros Hall other s Hs.
  destruct (decide (other = session_id)) as [->|Hne].
  - destruct (turn_consistent env sessions session_id text
                (entering_consistent _ _ _ Hall)) as [(s' & Hs' & Hc) _].
    simpl in Hs'. congruence.
  - rewrite handle_message_other in Hs by done. by apply (Hall other).
Qed.

(** What a run keeps and what it posts. *)
Lemma run_turns_consistent turns : forall sessions,
  map_Forall (fun _ session => consistent session) sessions ->
  map_Forall (fun _ session => consistent session) (fst (run_turns turns sessions)) /\
  (forall payload, payload ∈ snd (run_turns turns sessions) ->
     scamDetected payload = true /\ 3 <= totalMessagesExchanged payload).
Proof.
  induction turns as [|[[env id] text] turns IH]; intros sessions Hall.
  - split; [done|]. intros payload Hp. by apply elem_of_nil in Hp.
  - rewrite run_turns_cons. cbv zeta. simpl.
    pose proof (handle_message_all_consistent env sessions id text Hall) as Hall'.
    destruct (IH _ Hall') as [IH1 IH2]. split; [done|].
    intros payload Hp. apply elem_of_app in Hp as [Hp|Hp]; [|by apply IH2].
    destruct (turn_consistent env sessions id text
                (entering_consistent _ _ _ Hall)) as [_ Hnow].
    by destruct (Hnow payload Hp) as (_ & H1 & _ & H3).
Qed.

End Runs.

(** X11: no turn is lost.  In a run whose every turn can reach a client,
    the turn count of each conversation grows by the number of messages the
    run addressed to it, however the conversations are interleaved. *)
Theorem X11_every_turn_is_counted
    (turns : list (Env * string * string)) (sessions : gmap string Session.t)
    (session_id : string) :
  Forall (fun t => client_ok (fst (fst t)) = true) turns ->
  turns_counted (fst (Main.run_turns turns sessions)) session_id
  = turns_counted sessions session_id + turns_for session_id turns.
Proof.
  revert sessions. induction turns as [|[[env id] text] turns IH];
    intros sessions Hok.
  - unfold turns_for. simpl. lia.
  - apply Forall_cons in Hok as [Hhead Hok]. simpl in Hhead.
    rewrite run_turns_cons. cbv zeta. simpl. rewrite (IH _ Hok).
    unfold turns_for. destruct (decide (id = session_id)) as [->|Hne].
    + rewrite filter_cons_True by done.
      rewrite handle_message_counts by done. simpl. lia.
    + rewrite filter_cons_False by done.
      unfold turns_counted at 1. rewrite handle_message_other by done.
      fold (turns_counted sessions session_id). lia.
Qed.

Lemma X11_every_turn_is_counted_witness :
  turns_counted
    (fst (Main.run_turns (three_turns ++ [(env_llm_down, "s2", normal_message)]) ∅))
    "s1"
  = turns_counted ∅ "s1"
    + turns_for "s1" (three_turns ++ [(env_llm_down, "s2", normal_message)]).
Proof.
  apply (X11_every_turn_is_counted
           (three_turns ++ [(env_llm_down, "s2", normal_message)]) ∅ "s1").
  repeat constructor.
Defined.

(** X12: every session of a registry built from the empty one by any run
    of the handler is consistent: a session with an agent is a scam session
    whose agent has recorded exactly one scammer message per counted turn (at
    least one), and a session without an agent is not a scam or has counted no
    turn. *)
Theorem X12_sessions_stay_consistent (turns : list (Env * string * string)) :
  map_Forall (fun _ session => consistent session)
    (fst (Main.run_turns turns ∅)).
Proof. apply run_turns_consistent. apply map_Forall_empty. Qed.

(** X13: every report a run posts, starting from the empty registry, says
    that a scam was detected and counts at least three exchanged messages. *)
Theorem X13_reports_are_scam_reports (turns : list (Env * string * string)) :
  Forall (fun payload =>
            Main.scamDetected payload = true /\
            3 <= Main.totalMessagesExchanged payload)
    (snd (Main.run_turns turns ∅)).
Proof.
  apply Forall_forall. intros payload Hp.
  by apply (run_turns_consistent turns ∅ (map_Forall_empty _)).
Qed.

(** X14: after any turn, also one that ended in status 500,
    [get_session_info] finds the conversation and shows the stored turn
    count; after an answered turn that count is the count before plus one;
    and [get_session_info] answers not found exactly for the identifiers the
    registry does not hold, so also after [delete_session]. *)
Theorem X14_session_info_found_after_a_turn
    (env : Env) (sessions : gmap string Session.t) (session_id text : string) :
  let result := Main.handle_message env sessions session_id text in
  let sessions' := snd (fst result) in
  (exists info,
     Main.get_session_info sessions' session_id = Some info /\
     Main.info_turnCount info = turns_counted sessions' session_id /\
     (forall status reply,
        fst (fst result) = Main.AgentResponse status reply ->
        Main.info_turnCount info = turns_counted sessions session_id + 1)) /\
  Main.get_session_info
    (SessionManager.delete_session sessions' session_id) session_id = None /\
  (forall (registry : gmap string Session.t) other,
     Main.get_session_info registry other = None <-> registry !! other = None).
Proof.
  intros result sessions'. split; [|split].
  - destruct (handle_message_stored env sessions session_id text)
      as (s' & Hs' & _ & _ & _ & Hcount & _).
    fold result in Hs'. fold sessions' in Hs'.
    unfold Main.get_session_info, SessionManager.get_session, turns_counted.
    rewrite Hs'. eexists. split; [reflexivity|]. simpl. split; [done|].
    intros status reply Hresp.
    rewrite Hcount, entering_turn_count. unfold turns_counted.
    unfold result in Hresp. rewrite handle_message_unfold in Hresp.
    cbv zeta in Hresp.
    destruct (Main.respond env (entering sessions session_id text) text)
      as [[r s1]|]; [done|]. simpl in Hresp. discriminate.
  - unfold Main.get_session_info, SessionManager.get_session,
      SessionManager.delete_session. by rewrite lookup_delete_eq.
  - intros registry other.
    unfold Main.get_session_info, SessionManager.get_session.
    by destruct (registry !! other).
Qed.

(** ** The verdict of the classifier *)

Section Verdict.

Import ScamDetector.

Lemma matches_bound keywords message : matches keywords message <= length keywords.
Proof. unfold matches. apply length_filter. Qed.

Lemma keyword_hits_bound message : fst (keyword_totals message) <= 30.
Proof.
  unfold keyword_totals, scam_keywords. simpl.
  pose proof (matches_bound
    ["congratulations"; "won"; "winner"; "prize"; "lottery"; "lucky draw"] message).
  pose proof (matches_bound
    ["urgent"; "immediately"; "now"; "hurry"; "limited time"; "expires"] message).
  pose proof (matches_bound
    ["claim"; "payment"; "transfer"; "send money"; "pay"; "rupees"; "rs"] message).
  pose proof (matches_bound
    ["verify"; "confirm"; "update"; "kyc"; "account"; "details"] message).
  pose proof (matches_bound
    ["blocked"; "suspended"; "unauthorized"; "fraud"; "security alert"] message).
  simpl in *. lia.
Qed.

(** [detect_scam] through [score]. *)
Lemma detect_scam_score message :
  let s := score (fst (keyword_totals (lower message)))
             (_has_url message) (_has_upi_id message)
             (_has_phone_number message) (has_digit_run message) in
  is_scam (detect_scam message) = PyFloat.ge s confidence_threshold /\
  confidence (detect_scam message) = PyFloat.round2 s.
Proof.
  unfold detect_scam, _check_keywords, _check_patterns, score. simpl.
  pose proof (keyword_totals_lexicon (lower message)) as H30.
  destruct (keyword_totals (lower message)) as [total_matches total_keywords].
  simpl in *. subst. done.
Qed.

End Verdict.

(** Case analysis over the number of keyword hits, 0 to 30. *)
Ltac each_hit_count k Hk :=
  do 31 (destruct k as [|k]; [by vm_compute|]); exfalso; lia.

(** X15: keywords alone never make a scam.  A message in which none of
    the four patterns occurs (no URL, no payment handle, no phone number, no
    run of 9 to 18 digits) is classified as safe whatever keywords it
    contains. *)
Theorem X15_keywords_alone_never_scam (message : string) :
  ScamDetector._has_url message = false ->
  ScamDetector._has_upi_id message = false ->
  ScamDetector._has_phone_number message = false ->
  ScamDetector.has_digit_run message = false ->
  ScamDetector.is_scam (ScamDetector.detect_scam message) = false /\
  ScamDetector.scam_type (ScamDetector.detect_scam message) = None.
Proof.
  intros Hu Hh Hp Hd.
  assert (H : ScamDetector.is_scam (ScamDetector.detect_scam message) = false).
  { destruct (detect_scam_score message) as [-> _]. rewrite Hu, Hh, Hp, Hd.
    pose proof (keyword_hits_bound (lower message)) as Hk.
    revert Hk. generalize (fst (ScamDetector.keyword_totals (lower message))).
    intros k Hk. each_hit_count k Hk. }
  split; [exact H|].
  unfold ScamDetector.detect_scam in *. simpl in *. by rewrite H.
Qed.

Lemma X15_keywords_alone_never_scam_witness :
  ScamDetector.is_scam
    (ScamDetector.detect_scam
       "URGENT! You won the lottery prize, winner! Verify your account details immediately and pay the transfer fee now")
  = false /\
  ScamDetector.scam_type
    (ScamDetector.detect_scam
       "URGENT! You won the lottery prize, winner! Verify your account details immediately and pay the transfer fee now")
  = None.
Proof.
  apply (X15_keywords_alone_never_scam
    "URGENT! You won the lottery prize, winner! Verify your account details immediately and pay the transfer fee now");
    by vm_compute.
Defined.

(** X16: one keyword is not enough.  A message with at most one keyword
    of the lexicon in it is classified as safe even when all four patterns
    occur. *)
Theorem X16_one_keyword_never_scam (message : string) :
  fst (ScamDetector.keyword_totals (lower message)) <= 1 ->
  ScamDetector.is_scam (ScamDetector.detect_scam message) = false.
Proof.
  intros Hk. destruct (detect_scam_score message) as [-> _].
  revert Hk. generalize (fst (ScamDetector.keyword_totals (lower message))).
  intros k Hk.
  destruct (ScamDetector._has_url message), (ScamDetector._has_upi_id message),
    (ScamDetector._has_phone_number message), (ScamDetector.has_digit_run message);
    (destruct k as [|[|k]]; [by vm_compute|by vm_compute|exfalso; lia]).
Qed.

Lemma X16_one_keyword_never_scam_witness :
  fst (ScamDetector.keyword_totals
         (lower "Pay me at x@ybl or 9876543210, see http://a.in")) <= 1 /\
  ScamDetector.is_scam
    (ScamDetector.detect_scam "Pay me at x@ybl or 9876543210, see http://a.in")
  = false.
Proof.
  split; [vm_compute; lia|].
  apply (X16_one_keyword_never_scam
           "Pay me at x@ybl or 9876543210, see http://a.in").
  vm_compute. lia.
Defined.

(** X17: the reported confidence lies between 0 and 1, and the verdict
    agrees with it: a message is a scam exactly when the confidence that
    [detect_scam] reports, rounded to two places, is at least 0.6. *)
Theorem X17_verdict_agrees_with_confidence (message : string) :
  let d := ScamDetector.detect_scam message in
  PyFloat.ge (ScamDetector.confidence d) 0%float = true /\
  PyFloat.ge 1%float (ScamDetector.confidence d) = true /\
  ScamDetector.is_scam d = PyFloat.ge (ScamDetector.confidence d) 0.6%float.
Proof.
  intros d. unfold d. destruct (detect_scam_score message) as [-> ->].
  pose proof (keyword_hits_bound (lower message)) as Hk.
  revert Hk. generalize (fst (ScamDetector.keyword_totals (lower message))).
  intros k Hk.
  destruct (ScamDetector._has_url message), (ScamDetector._has_upi_id message),
    (ScamDetector._has_phone_number message), (ScamDetector.has_digit_run message);
    each_hit_count k Hk.
Qed.

(** X18: the scam type is given exactly to scams, and it is one of the
    five names prize_scam, phishing, job_scam, payment_scam and unknown. *)
Theorem X18_scam_type_only_for_scams (message : string) :
  let d := ScamDetector.detect_scam message in
  (ScamDetector.scam_type d = None <-> ScamDetector.is_scam d = false) /\
  (forall name, ScamDetector.scam_type d = Some name ->
     ScamDetector.is_scam d = true /\ In name scam_type_names).
Proof.
  intros d. unfold d, ScamDetector.detect_scam. simpl.
  match goal with |- context [PyFloat.ge ?x ?y] => destruct (PyFloat.ge x y) end.
  - split; [split; congruence|]. intros name [= <-]. split; [done|].
    unfold ScamDetector._identify_scam_type, scam_type_names.
    repeat match goal with |- context [if ?b then _ else _] => destruct b end;
      simpl; auto 10.
  - split; [done|]. intros name H. discriminate.
Qed.

(** X19: ten keywords and one pattern are enough.  A message with at
    least ten keywords of the lexicon in it and at least one of the four
    patterns is classified as a scam. *)
Theorem X19_ten_keywords_and_a_pattern_scam (message : string) :
  10 <= fst (ScamDetector.keyword_totals (lower message)) ->
  ScamDetector._has_url message || ScamDetector._has_upi_id message
  || ScamDetector._has_phone_number message || ScamDetector.has_digit_run message
  = true ->
  ScamDetector.is_scam (ScamDetector.detect_scam message) = true.
Proof.
  intros Hk Hp. destruct (detect_scam_score message) as [-> _].
  pose proof (keyword_hits_bound (lower message)) as Hk'.
  revert Hk Hk'. generalize (fst (ScamDetector.keyword_totals (lower message))).
  intros k Hk Hk'.
  destruct (ScamDetector._has_url message), (ScamDetector._has_upi_id message),
    (ScamDetector._has_phone_number message), (ScamDetector.has_digit_run message);
    try discriminate Hp;
    (do 10 (destruct k as [|k]; [exfalso; lia|]));
    (do 21 (destruct k as [|k]; [by vm_compute|])); exfalso; lia.
Qed.

Lemma X19_ten_keywords_and_a_pattern_scam_witness :
  ScamDetector.is_scam
    (ScamDetector.detect_scam
       "URGENT! You won the lottery prize, winner! Verify your account details immediately and pay the transfer fee now. Call 9876543210")
  = true.
Proof.
  apply (X19_ten_keywords_and_a_pattern_scam
    "URGENT! You won the lottery prize, winner! Verify your account details immediately and pay the transfer fee now. Call 9876543210");
    vm_compute; [lia|reflexivity].
Defined.

(** ** More on the cumulative indicators *)

Section MoreMerge.

Import ConversationalAgent.

Implicit Types (acc d : gmap string (list string)) (key item : string).

Lemma add_item_extends key key' acc item :
  exists added, get key' (add_item key acc item) = get key' acc ++ added.
Proof.
  destruct (decide (key = key')) as [->|Hne].
  - rewrite get_add_item_same. case_decide; [exists []|exists [item]];
      by rewrite ?app_nil_r.
  - exists []. by rewrite get_add_item_other, app_nil_r.
Qed.

Lemma add_items_extends key key' items acc :
  exists added,
    get key' (fold_left (add_item key) items acc) = get key' acc ++ added.
Proof.
  revert acc. induction items as [|i items IH]; intros acc; simpl.
  - exists []. by rewrite app_nil_r.
  - destruct (IH (add_item key acc i)) as [l2 ->].
    destruct (add_item_extends key key' acc i) as [l1 ->].
    exists (l1 ++ l2). by rewrite app_assoc.
Qed.

Lemma update_keys_extends keys key' acc d :
  exists added, get key' (update_keys keys acc d) = get key' acc ++ added.
Proof.
  revert acc. induction keys as [|k keys IH]; intros acc; simpl.
  - exists []. by rewrite app_nil_r.
  - destruct (IH (fold_left (add_item k) (get k d) acc)) as [l2 ->].
    destruct (add_items_extends k key' (get k d) acc) as [l1 ->].
    exists (l1 ++ l2). by rewrite app_assoc.
Qed.

Lemma add_item_origin key key' acc item x :
  x ∈ get key' (add_item key acc item) ->
  x ∈ get key' acc \/ (key = key' /\ x = item).
Proof.
  destruct (decide (key = key')) as [->|Hne].
  - rewrite get_add_item_same. case_decide; [by left|].
    intros Hx. apply elem_of_app in Hx as [Hx|Hx]; [by left|right].
    by apply list_elem_of_singleton in Hx.
  - rewrite get_add_item_other by done. by left.
Qed.

Lemma add_items_origin key key' items acc x :
  x ∈ get key' (fold_left (add_item key) items acc) ->
  x ∈ get key' acc \/ (key = key' /\ x ∈ items).
Proof.
  revert acc. induction items as [|i items IH]; intros acc; simpl; [by left|].
  intros H. apply IH in H as [H|[-> H]].
  - apply add_item_origin in H as [H'|[-> ->]]; [by left|right].
    split; [done|by left].
  - right. split; [done|by right].
Qed.

Lemma update_keys_origin keys key' acc d x :
  x ∈ get key' (update_keys keys acc d) ->
  x ∈ get key' acc \/ (key' ∈ keys /\ x ∈ get key' d).
Proof.
  revert acc. induction keys as [|k keys IH]; intros acc; simpl; [by left|].
  intros H. apply IH in H as [H|[Hk H]].
  - apply add_items_origin in H as [H'|[-> H']]; [by left|right].
    split; [by left|done].
  - right. split; [by right|done].
Qed.

Lemma add_item_lookup_other key key' acc item :
  key <> key' -> add_item key acc item !! key' = acc !! key'.
Proof.
  intros Hne. unfold add_item. case_decide; [done|].
  rewrite lookup_insert_ne by done.
  destruct (acc !! key); [done|]. by rewrite lookup_insert_ne.
Qed.

Lemma update_keys_lookup_other keys key' acc d :
  key' ∉ keys -> update_keys keys acc d !! key' = acc !! key'.
Proof.
  revert acc. induction keys as [|k keys IH]; intros acc Hk; simpl; [done|].
  apply not_elem_of_cons in Hk as [Hne Hk]. rewrite IH by done.
  generalize (get k d). intros items. revert acc.
  induction items as [|i items IHi]; intros acc; simpl; [done|].
  rewrite IHi. by apply add_item_lookup_other.
Qed.

End MoreMerge.

(** X20: merging never removes or reorders what is known: every list of
    the cumulative dictionary after [_update_extracted] is the list before
    with the new items added at its end. *)
Theorem X20_merge_only_appends (acc d : gmap string (list string)) (key : string) :
  exists added,
    ConversationalAgent.get key (ConversationalAgent._update_extracted acc d)
    = ConversationalAgent.get key acc ++ added.
Proof. apply (update_keys_extends ConversationalAgent.merged_keys). Qed.

(** X21: merging adds exactly what was extracted: a string is in a list
    of the cumulative dictionary after [_update_extracted] exactly when it was
    there before or the list is one of the five merged ones and the string is
    in the new data under the same key. *)
Theorem X21_merge_adds_exactly_the_new_items
    (acc d : gmap string (list string)) (key x : string) :
  x ∈ ConversationalAgent.get key (ConversationalAgent._update_extracted acc d)
  <->
  x ∈ ConversationalAgent.get key acc \/
  (key ∈ ConversationalAgent.merged_keys /\ x ∈ ConversationalAgent.get key d).
Proof.
  split.
  - apply (update_keys_origin ConversationalAgent.merged_keys).
  - intros [H|[Hk H]].
    + by apply (update_keys_mono ConversationalAgent.merged_keys).
    + by apply (update_keys_elem ConversationalAgent.merged_keys).
Qed.

(** X22: the IFSC codes the extractor finds are never kept.  Merging
    leaves every key outside the five merged ones as it was, and whatever the
    turns an agent has answered, starting from a new agent, its cumulative
    dictionary has no entry ifsc_codes. *)
Theorem X22_ifsc_codes_never_kept
    (env0 : Env) (turns : list (Env * string * string)) :
  (forall acc d key,
     key ∉ ConversationalAgent.merged_keys ->
     ConversationalAgent._update_extracted acc d !! key = acc !! key) /\
  ConversationalAgent.all_extracted
    (fold_left
       (fun a '(env, text, scam_type) =>
          snd (ConversationalAgent.generate_response env a text scam_type))
       turns (ConversationalAgent.init env0)) !! "ifsc_codes" = None.
Proof.
  split.
  - intros acc d key. apply (update_keys_lookup_other ConversationalAgent.merged_keys).
  - assert (H : forall a,
      ConversationalAgent.all_extracted a !! "ifsc_codes" = None ->
      ConversationalAgent.all_extracted
        (fold_left
           (fun a '(env, text, scam_type) =>
              snd (ConversationalAgent.generate_response env a text scam_type))
           turns a) !! "ifsc_codes" = None).
    { induction turns as [|[[env text] scam_type] turns IH]; intros a Ha; [done|].
      simpl. apply IH. unfold ConversationalAgent.generate_response.
      assert ("ifsc_codes" ∉ ConversationalAgent.merged_keys) as Hk.
      { unfold ConversationalAgent.merged_keys. intros Hin.
        repeat (apply elem_of_cons in Hin as [Hin|Hin]; [discriminate|]).
        by apply elem_of_nil in Hin. }
      destruct (llm env); simpl;
        by rewrite (update_keys_lookup_other ConversationalAgent.merged_keys). }
    apply H. by vm_compute.
Qed.

(** X23: the agent records every scammer message and only the replies of
    the client.  After [generate_response] the history is the old one, then
    the scammer's message, then the client's reply if it gave one; a fallback
    reply is returned but not recorded; and the number of recorded scammer
    messages has grown by one. *)
Theorem X23_history_records_message_and_client_reply
    (env : Env) (a : ConversationalAgent.t) (text scam_type : string) :
  let '(reply, a') := ConversationalAgent.generate_response env a text scam_type in
  reply = match llm env with
          | Some answer => answer
          | None => ConversationalAgent._fallback env
          end /\
  ConversationalAgent.conversation_history a'
  = ConversationalAgent.conversation_history a
    ++ ("user", text)
       :: match llm env with
          | Some answer => [("assistant", answer)]
          | None => []
          end /\
  ConversationalAgent.get_turn_count a' = S (ConversationalAgent.get_turn_count a) /\
  ConversationalAgent.persona a' = ConversationalAgent.persona a.
Proof.
  pose proof (generate_response_turn_count env a text scam_type) as Hn.
  unfold ConversationalAgent.generate_response in *.
  destruct (llm env) as [answer|]; simpl in *.
  - split; [done|]. split; [by rewrite <- app_assoc|]. by split.
  - by repeat split.
Qed.

(** ** What the scan returns *)

Section ScanResults.

Implicit Types (p q : ascii -> bool) (s pre rest : list ascii) (k : cont)
  (r : re).

(** A repetition hands over after a number of characters within its
    bounds, all of its class. *)
Lemma rep_inv p s : forall lo hi prev n k x,
  rep p lo hi prev s n k = Some x ->
  exists j, lo <= j /\ fits hi j /\ j <= length s /\
            forallb p (firstn j s) = true /\
            k (before prev (firstn j s)) (skipn j s) (n + j) = Some x.
Proof.
  induction s as [|c s IH]; intros lo hi prev n k x H; simpl in H.
  - destruct lo; [|done]. exists 0. rewrite Nat.add_0_r. simpl.
    repeat split; try done. by destruct hi; simpl; lia.
  - assert (Hstop : match lo with 0 => k prev (c :: s) n | S _ => None end = Some x ->
                    exists j, lo <= j /\ fits hi j /\ j <= length (c :: s) /\
                      forallb p (firstn j (c :: s)) = true /\
                      k (before prev (firstn j (c :: s))) (skipn j (c :: s)) (n + j)
                      = Some x).
    { destruct lo; [|done]. intros Hk. exists 0. rewrite Nat.add_0_r. simpl.
      repeat split; try done; try lia. by destruct hi; simpl; lia. }
    destruct (p c && may_take hi) eqn:Hp; [|by apply Hstop].
    destruct (rep p (pred lo) (option_map pred hi) (Some c) s (S n) k) as [y|] eqn:Hr;
      [|by apply Hstop].
    injection H as ->. apply IH in Hr as (j & Hlo & Hhi & Hj & Hall & Hk).
    apply andb_true_iff in Hp as [Hpc Hmay].
    exists (S j). cbn [firstn skipn forallb length]. rewrite before_cons, Hpc, Hall.
    replace (n + S j) with (S n + j) by lia.
    repeat split; try done; try lia.
    destruct hi as [[|h]|]; simpl in *; [done|lia|done].
Qed.

(** Every string the scan returns is cut from the subject where a match
    starts. *)
Lemma scan_elem r s : forall prev skip x,
  In x (scan r prev s skip) ->
  exists pre rest m, s = pre ++ rest /\
                     match_at r (before prev pre) rest = Some m /\
                     x = firstn m rest.
Proof.
  induction s as [|c s IH]; intros prev skip x Hx.
  - destruct skip; [|done]. rewrite scan_start in Hx.
    destruct (match_at r prev []) as [m|] eqn:E; [|done].
    destruct Hx as [<-|[]]. by exists [], [], m.
  - assert (Hrec : forall j, In x (scan r (Some c) s j) ->
              exists pre rest m, c :: s = pre ++ rest /\
                match_at r (before prev pre) rest = Some m /\ x = firstn m rest).
    { intros j Hj. apply IH in Hj as (pre & rest & m & -> & Hm & ->).
      exists (c :: pre), rest, m. by rewrite before_cons. }
    destruct skip as [|j]; [|by apply (Hrec j)].
    rewrite scan_start in Hx.
    destruct (match_at r prev (c :: s)) as [m|] eqn:E; [|by apply (Hrec 0)].
    destruct Hx as [<-|Hx]; [|by apply (Hrec (pred m))].
    by exists [], (c :: s), m.
Qed.

Lemma findall_elem r text x :
  In x (findall r text) ->
  exists pre rest m,
    list_ascii_of_string text = pre ++ rest /\
    match_at r (last pre) rest = Some m /\
    x = string_of_list_ascii (firstn m rest).
Proof.
  unfold findall. intros Hx. apply in_map_iff in Hx as (l & <- & Hl).
  apply scan_elem in Hl as (pre & rest & m & Hs & Hm & ->).
  exists pre, rest, m. split; [done|]. split; [|done].
  unfold before in Hm. by destruct (last pre).
Qed.

(** The search finds a match exactly when the scan returns one. *)
Lemma search_from_scan r s : forall prev,
  search_from r prev s = true <-> scan r prev s 0 <> [].
Proof.
  induction s as [|c s IH]; intros prev.
  - rewrite scan_start. simpl. by destruct (match_at r prev []).
  - rewrite scan_start. simpl. destruct (match_at r prev (c :: s)); [done|].
    apply IH.
Qed.

Lemma search_findall r text : search r text = true <-> findall r text <> [].
Proof.
  unfold search, findall. rewrite search_from_scan.
  by destruct (scan r None (list_ascii_of_string text) 0).
Qed.

(** A cut of the subject is a substring of it. *)
Lemma prefix_intro (sub post : list ascii) :
  String.prefix (string_of_list_ascii sub) (string_of_list_ascii (sub ++ post)) = true.
Proof.
  induction sub as [|c sub IH]; simpl; [by destruct (string_of_list_ascii post)|].
  by destruct (ascii_dec c c).
Qed.

Lemma contains_intro (pre sub post : list ascii) :
  contains (string_of_list_ascii sub) (string_of_list_ascii (pre ++ sub ++ post)) = true.
Proof.
  induction pre as [|c pre IH].
  - simpl app. destruct (string_of_list_ascii (sub ++ post)) eqn:E;
      cbn [contains]; rewrite <- E, prefix_intro; done.
  - simpl. by rewrite IH, orb_true_r.
Qed.

Lemma findall_substring r text x :
  In x (findall r text) -> contains x text = true.
Proof.
  intros Hx. apply findall_elem in Hx as (pre & rest & m & Hs & _ & ->).
  rewrite <- (string_of_list_ascii_of_string text), Hs.
  rewrite <- (firstn_skipn m rest) at 2. apply contains_intro.
Qed.

End ScanResults.

(** ** What the extractor returns *)

Section Shapes.

Implicit Types (s pre rest run : list ascii).

Lemma word_after_digits c run :
  is_digit c = true -> forallb is_digit run = true ->
  word_at (before (Some c) run) = true.
Proof.
  intros Hc Hall. unfold before.
  destruct (last run) as [z|] eqn:E; simpl; [|by apply is_digit_word].
  apply is_digit_word. apply last_Some in E as [l ->].
  rewrite forallb_app in Hall. apply andb_true_iff in Hall as [_ Hz].
  simpl in Hz. by destruct (is_digit z).
Qed.

Lemma phone_match_inv prev s m :
  match_at phone_pattern prev s = Some m ->
  m = 10 /\ mobile_shaped (firstn 10 s) = true /\
  word_at prev = false /\ word_at (head (skipn 10 s)) = false.
Proof.
  unfold match_at, phone_pattern. cbn [cat run].
  destruct (boundary prev s) eqn:Hb; [|done].
  destruct s as [|c s]; [done|]. destruct (is_6_9 c) eqn:Hc; [|done].
  unfold times. intros H.
  apply rep_inv in H as (j & Hlo & Hhi & Hj & Hall & Hk). simpl in Hhi.
  assert (j = 9) as -> by lia.
  destruct (boundary (before (Some c) (firstn 9 s)) (skipn 9 s)) eqn:He; [|done].
  injection Hk as <-. split; [done|].
  pose proof (is_6_9_digit _ Hc) as Hd.
  split; [|split].
  - cbn [firstn mobile_shaped]. rewrite Hc, Hall, length_take.
    by replace (9 `min` length s) with 9 by lia.
  - unfold boundary in Hb. simpl in Hb. rewrite (is_digit_word _ Hd) in Hb.
    by destruct (word_at prev).
  - unfold boundary in He. rewrite (word_after_digits _ _ Hd Hall) in He.
    cbn [skipn]. by destruct (word_at (head (skipn 9 s))).
Qed.

Lemma bank_match_inv prev s m :
  match_at bank_pattern prev s = Some m ->
  9 <= m <= 18 /\ m <= length s /\ forallb is_digit (firstn m s) = true.
Proof.
  unfold match_at, bank_pattern. cbn [cat run].
  destruct (boundary prev s); [|done]. intros H.
  apply rep_inv in H as (j & Hlo & Hhi & Hj & Hall & Hk). simpl in Hhi.
  destruct (boundary (before prev (firstn j s)) (skipn j s)); [|done].
  injection Hk as <-. simpl. split; [lia|done].
Qed.

Lemma length_of_string (x : string) :
  String.length x = length (list_ascii_of_string x).
Proof. induction x as [|c x IH]; simpl; [done|by rewrite IH]. Qed.

End Shapes.

(** X24: the detector and the extractor agree on numbers.  The phone
    pattern of the detector fires exactly on the messages in which
    [extract_phone_numbers] finds a number, and its digit-run pattern fires
    exactly on the messages in which [extract_bank_accounts] would find an
    account once a gate word is present. *)
Theorem X24_detector_patterns_match_extractor (message : string) :
  (ScamDetector._has_phone_number message = true
   <-> extract_phone_numbers message <> []) /\
  (extract_bank_accounts message <> []
   <-> any_in bank_words (lower message) = true /\
       ScamDetector.has_digit_run message = true).
Proof.
  split.
  - apply search_findall.
  - unfold extract_bank_accounts, ScamDetector.has_digit_run.
    rewrite search_findall.
    destruct (any_in bank_words (lower message)); [|by intuition].
    by intuition.
Qed.

(** X25: for a text whose characters are all below U+0100 (the strings
    of this development, where [\d] matches the ten digits 0-9 and nothing
    else), what [extract_phone_numbers] and [extract_bank_accounts] return
    has the promised shape: every phone number is ten digits beginning with 6,
    7, 8 or 9, and every bank account is 9 to 18 characters long, all of them
    digits 0-9. *)
Theorem X25_numbers_have_their_shape (text : string) :
  Forall (fun x => mobile_shaped (list_ascii_of_string x) = true)
    (extract_phone_numbers text) /\
  Forall (fun x => 9 <= String.length x <= 18 /\
                   forallb is_digit (list_ascii_of_string x) = true)
    (extract_bank_accounts text).
Proof.
  split; apply Forall_forall; intros x Hx; apply list_elem_of_In in Hx.
  - apply findall_elem in Hx as (pre & rest & m & _ & Hm & ->).
    apply phone_match_inv in Hm as (-> & Hshape & _).
    by rewrite list_ascii_of_string_of_list_ascii.
  - unfold extract_bank_accounts in Hx.
    destruct (any_in bank_words (lower text)); [|done].
    apply findall_elem in Hx as (pre & rest & m & _ & Hm & ->).
    apply bank_match_inv in Hm as (Hm & Hlen & Hall).
    rewrite length_of_string, list_ascii_of_string_of_list_ascii, length_take.
    split; [lia|done].
Qed.

(** X26: nothing is made up: every string in every list [extract_all]
    returns occurs in the text as it is. *)
Theorem X26_extracted_strings_occur_in_text (text key : string) :
  Forall (fun x => contains x text = true)
    (ConversationalAgent.get key (extract_all text)).
Proof.
  apply Forall_forall. intros x Hx.
  unfold ConversationalAgent.get, extract_all in Hx.
  repeat (rewrite lookup_insert in Hx; case_decide as Hk; simpl in Hx;
          [clear Hk|clear Hk]);
    rewrite ?lookup_empty in Hx; simpl in Hx;
    try (by apply elem_of_nil in Hx).
  - unfold extract_upi_ids in Hx. apply list_elem_of_filter in Hx as [_ Hx].
    by apply list_elem_of_In, findall_substring in Hx.
  - unfold extract_bank_accounts in Hx.
    destruct (any_in bank_words (lower text)); [|by apply elem_of_nil in Hx].
    by apply list_elem_of_In, findall_substring in Hx.
  - by apply list_elem_of_In, findall_substring in Hx.
  - by apply list_elem_of_In, findall_substring in Hx.
  - by apply list_elem_of_In, findall_substring in Hx.
  - apply list_elem_of_filter in Hx as [_ Hx].
    by apply list_elem_of_In, findall_substring in Hx.
Qed.

(** X27: with a gate word in the text, every phone number the extractor
    returns is also returned as a bank account. *)
Theorem X27_phone_numbers_are_bank_accounts (text : string) :
  any_in bank_words (lower text) = true ->
  Forall (fun x => In x (extract_bank_accounts text)) (extract_phone_numbers text).
Proof.
  intros Hgate. apply Forall_forall. intros x Hx. apply list_elem_of_In in Hx.
  apply findall_elem in Hx as (pre & rest & m & Hs & Hm & ->).
  apply phone_match_inv in Hm as (-> & Hshape & Hprev & Hpost).
  unfold extract_bank_accounts. rewrite Hgate.
  rewrite <- (string_of_list_ascii_of_string text), Hs.
  rewrite <- (firstn_skipn 10 rest) at 2.
  apply (findall_reaches _ is_digit); [apply bank_pattern_made_of| |].
  - destruct (last pre) as [c|]; [|done]. by apply not_word_not_digit.
  - by apply bank_pattern_at_number.
Qed.

Lemma X27_phone_numbers_are_bank_accounts_witness :
  Forall (fun x => In x (extract_bank_accounts
                           "A/c 9876543210 or 7654321098, IFSC UTIB0000001"))
    (extract_phone_numbers "A/c 9876543210 or 7654321098, IFSC UTIB0000001").
Proof.
  apply (X27_phone_numbers_are_bank_accounts
           "A/c 9876543210 or 7654321098, IFSC UTIB0000001").
  by vm_compute.
Defined.

Section MoreShapes.

Implicit Types (s pre rest run : list ascii).

Lemma take_split s j n :
  j <= length s -> firstn (j + n) s = firstn j s ++ firstn n (skipn j s).
Proof.
  intros Hj. rewrite <- (take_drop j s) at 1.
  by rewrite take_app_add' by (by rewrite length_take_le).
Qed.

Lemma is_char_eq a c : is_char a c = true -> c = a.
Proof. unfold is_char. intros H. by apply Ascii.eqb_eq in H. Qed.

Lemma upi_match_inv prev s m :
  match_at IntelligenceExtractor.upi_pattern prev s = Some m ->
  exists a b, firstn m s = a ++ "@"%char :: b /\ a <> [] /\ b <> [] /\
              forallb IntelligenceExtractor.upi_char a = true /\
              forallb IntelligenceExtractor.upi_char b = true.
Proof.
  unfold match_at, IntelligenceExtractor.upi_pattern. cbn [cat run plus].
  destruct (boundary prev s); [|done]. intros H.
  apply rep_inv in H as (j1 & Hlo1 & _ & Hj1 & Ha & H).
  destruct (skipn j1 s) as [|c s2] eqn:Es; [done|].
  destruct (is_char "@" c) eqn:Ec; [|done]. apply is_char_eq in Ec as ->.
  apply rep_inv in H as (j2 & Hlo2 & _ & Hj2 & Hb & H).
  destruct (boundary _ _); [|done]. injection H as <-.
  exists (firstn j1 s), (firstn j2 s2).
  replace (S (j1 + j2)) with (j1 + S j2) by lia.
  rewrite take_split, Es by done. cbn [firstn].
  split; [done|]. split; [|split; [|done]].
  - destruct s; [simpl in *; lia|]. by destruct j1; [lia|].
  - destruct s2; [simpl in *; lia|]. by destruct j2; [lia|].
Qed.

Lemma ifsc_shaped_intro (a b : list ascii) c :
  length a = 4 -> length b = 6 ->
  forallb is_upper_az a = true -> is_char "0" c = true ->
  forallb upper_or_digit b = true ->
  ifsc_shaped (a ++ c :: b) = true.
Proof.
  intros Ha Hb Hua Hc Hub.
  destruct a as [|a1 [|a2 [|a3 [|a4 [|]]]]]; try discriminate.
  destruct b as [|b1 [|b2 [|b3 [|b4 [|b5 [|b6 [|]]]]]]]; try discriminate.
  unfold ifsc_shaped. cbn [app length firstn skipn].
  rewrite Hua, Hub. cbn [forallb]. by rewrite Hc.
Qed.

Lemma ifsc_match_inv prev s m :
  match_at ifsc_pattern prev s = Some m ->
  m = 11 /\ ifsc_shaped (firstn 11 s) = true.
Proof.
  unfold match_at, ifsc_pattern. cbn [cat run times].
  destruct (boundary prev s); [|done]. intros H.
  apply rep_inv in H as (j1 & Hlo1 & Hhi1 & Hj1 & Ha & H). simpl in Hhi1.
  assert (j1 = 4) as -> by lia.
  destruct (skipn 4 s) as [|c s2] eqn:Es; [done|].
  destruct (is_char "0" c) eqn:Ec; [|done].
  apply rep_inv in H as (j2 & Hlo2 & Hhi2 & Hj2 & Hb & H). simpl in Hhi2.
  assert (j2 = 6) as -> by lia.
  destruct (boundary _ _); [|done]. injection H as <-. split; [done|].
  change 11 with (4 + 7). rewrite take_split, Es by done. cbn [firstn].
  apply ifsc_shaped_intro; try done; by rewrite length_take_le.
Qed.

Lemma url_match_inv prev s m :
  match_at IntelligenceExtractor.url_pattern prev s = Some m ->
  exists scheme rest,
    firstn m s = scheme ++ rest /\
    (scheme = list_ascii_of_string "http://" \/
     scheme = list_ascii_of_string "https://") /\
    rest <> [] /\ forallb url_char rest = true.
Proof.
  unfold match_at, IntelligenceExtractor.url_pattern.
  cbn [cat run lit opt plus].
  destruct s as [|c1 s]; [done|]. destruct (is_char "h" c1) eqn:E1; [|done].
  destruct s as [|c2 s]; [done|]. destruct (is_char "t" c2) eqn:E2; [|done].
  destruct s as [|c3 s]; [done|]. destruct (is_char "t" c3) eqn:E3; [|done].
  destruct s as [|c4 s]; [done|]. destruct (is_char "p" c4) eqn:E4; [|done].
  apply is_char_eq in E1 as ->, E2 as ->, E3 as ->, E4 as ->.
  intros H. apply rep_inv in H as (j & _ & Hhi & Hj & Hs & H). simpl in Hhi.
  destruct (skipn j s) as [|c5 s5] eqn:Es; [done|].
  destruct (is_char ":" c5) eqn:E5; [|done].
  destruct s5 as [|c6 s5]; [done|]. destruct (is_char "/" c6) eqn:E6; [|done].
  destruct s5 as [|c7 s5]; [done|]. destruct (is_char "/" c7) eqn:E7; [|done].
  apply is_char_eq in E5 as ->, E6 as ->, E7 as ->.
  apply rep_inv in H as (j2 & Hlo2 & _ & Hj2 & Hrest & H).
  injection H as <-.
  assert (Hne : firstn j2 s5 <> []).
  { destruct s5; [simpl in *; lia|]. by destruct j2; [lia|]. }
  destruct j as [|[|j]]; [| |lia].
  - rewrite drop_0 in Es. subst s.
    exists (list_ascii_of_string "http://"), (firstn j2 s5).
    split; [done|]. split; [by left|done].
  - destruct s as [|c s]; [simpl in Hj; lia|].
    change (skipn 1 (c :: s)) with (skipn 0 s) in Es.
    rewrite drop_0 in Es. subst s.
    cbn [firstn forallb] in Hs. rewrite andb_true_r in Hs.
    apply is_char_eq in Hs as ->.
    exists (list_ascii_of_string "https://"), (firstn j2 s5).
    split; [done|]. split; [by right|done].
Qed.

End MoreShapes.

Section TextFacts.

Lemma prefix_lower (p u : string) :
  String.prefix p u = true -> String.prefix (lower p) (lower u) = true.
Proof.
  revert u. induction p as [|c p IH]; intros u H; [by destruct u|].
  destruct u as [|c' u]; [done|]. simpl in *.
  destruct (ascii_dec c c') as [->|]; [|done].
  destruct (ascii_dec (lower_char c') (lower_char c')); [by apply IH|done].
Qed.

Lemma prefix_contains (p s : string) :
  String.prefix p s = true -> contains p s = true.
Proof. intros H. destruct s; cbn [contains]; by rewrite H. Qed.

Lemma forallb_url_scheme (scheme rest : list ascii) :
  scheme = list_ascii_of_string "http://" \/
  scheme = list_ascii_of_string "https://" ->
  forallb url_char rest = true -> forallb url_char (scheme ++ rest) = true.
Proof.
  intros [->| ->] H; rewrite forallb_app, H; by vm_compute.
Qed.

End TextFacts.

(** X28: every IFSC code [extract_ifsc_codes] returns is eleven characters
    long: four capital letters, the digit 0, then six capital letters or
    digits. *)
Theorem X28_ifsc_codes_have_their_shape (text : string) :
  Forall (fun x => ifsc_shaped (list_ascii_of_string x) = true)
    (extract_ifsc_codes text).
Proof.
  apply Forall_forall. intros x Hx. apply list_elem_of_In in Hx.
  apply findall_elem in Hx as (pre & rest & m & _ & Hm & ->).
  apply ifsc_match_inv in Hm as (-> & Hshape).
  by rewrite list_ascii_of_string_of_list_ascii.
Qed.

(** X29: every URL [extract_urls] returns begins with http:// or https://
    and contains no white space and none of the characters the pattern stops
    at; the suspicious URLs of [extract_all] are exactly the returned URLs
    that [is_suspicious_url] flags; and every URL that begins with http:// is
    flagged. *)
Theorem X29_urls_have_a_scheme_and_plain_http_is_suspicious (text : string) :
  Forall (fun u =>
            String.prefix "http://" u || String.prefix "https://" u = true /\
            forallb url_char (list_ascii_of_string u) = true)
    (extract_urls text) /\
  (forall u,
     u ∈ ConversationalAgent.get "suspicious_urls" (extract_all text) <->
     u ∈ extract_urls text /\ is_suspicious_url u = true) /\
  (forall u, String.prefix "http://" u = true -> is_suspicious_url u = true).
Proof.
  split; [|split].
  - apply Forall_forall. intros u Hu. apply list_elem_of_In in Hu.
    apply findall_elem in Hu as (pre & rest & m & _ & Hm & ->).
    apply url_match_inv in Hm as (scheme & tail & -> & Hscheme & _ & Htail).
    rewrite list_ascii_of_string_of_list_ascii.
    split; [|by apply forallb_url_scheme].
    destruct Hscheme as [-> | ->].
    + pose proof (prefix_intro (list_ascii_of_string "http://") tail) as Hp.
      change (string_of_list_ascii (list_ascii_of_string "http://"))
        with "http://" in Hp.
      by rewrite Hp.
    + pose proof (prefix_intro (list_ascii_of_string "https://") tail) as Hp.
      change (string_of_list_ascii (list_ascii_of_string "https://"))
        with "https://" in Hp.
      by rewrite Hp, orb_true_r.
  - intros u. unfold ConversationalAgent.get, extract_all.
    simplify_map_eq. rewrite list_elem_of_filter.
    rewrite Is_true_true. by intuition.
  - intros u Hu. unfold is_suspicious_url, any_in.
    apply existsb_exists. exists "http://". split.
    + unfold bad_signs. simpl. tauto.
    + apply prefix_contains. by apply (prefix_lower "http://").
Qed.

(** X30: every payment handle [extract_upi_ids] returns contains an
    at-sign with something before and after it, is made of letters, digits,
    dots, underscores, hyphens and at-signs only, and contains, in lower
    case, one of the eleven provider names. *)
Theorem X30_upi_ids_have_their_shape (text : string) :
  Forall (fun x =>
            (exists a b,
               list_ascii_of_string x = a ++ "@"%char :: b /\
               a <> [] /\ b <> [] /\
               forallb IntelligenceExtractor.upi_char a = true /\
               forallb IntelligenceExtractor.upi_char b = true) /\
            contains "@" x = true /\
            any_in upi_providers (lower x) = true)
    (extract_upi_ids text).
Proof.
  apply Forall_forall. intros x Hx. unfold extract_upi_ids in Hx.
  apply list_elem_of_filter in Hx as [Hprov Hx]. apply Is_true_true in Hprov.
  apply list_elem_of_In in Hx.
  apply findall_elem in Hx as (pre & rest & m & _ & Hm & ->).
  apply upi_match_inv in Hm as (a & b & E & Ha & Hb & Hua & Hub).
  rewrite E in *. rewrite list_ascii_of_string_of_list_ascii.
  split; [by exists a, b|]. split; [|done].
  apply (contains_intro a ["@"%char] b).
Qed.

(** ** Extraction during a turn *)

Section TurnExtraction.

Import ConversationalAgent.

Lemma get_extract_all_upi text :
  get "upi_ids" (extract_all text) = extract_upi_ids text.
Proof. unfold get, extract_all. by simplify_map_eq. Qed.

Lemma get_extract_all_urls text :
  get "urls" (extract_all text) = extract_urls text.
Proof. unfold get, extract_all. by simplify_map_eq. Qed.

Lemma get_extract_all_suspicious text :
  get "suspicious_urls" (extract_all text)
  = filter (fun u => Is_true (is_suspicious_url u)) (extract_urls text).
Proof. unfold get, extract_all. by simplify_map_eq. Qed.

Lemma merged_key_elem key :
  In key merged_keys -> key ∈ merged_keys.
Proof. apply list_elem_of_In. Qed.

Lemma _update_extracted_elem acc d key x :
  In key merged_keys ->
  (x ∈ get key (_update_extracted acc d) <-> x ∈ get key acc \/ x ∈ get key d).
Proof.
  intros Hk. apply merged_key_elem in Hk. split.
  - intros H. apply (update_keys_origin merged_keys) in H as [H|[_ H]];
      [by left|by right].
  - intros [H|H].
    + by apply (update_keys_mono merged_keys).
    + by apply (update_keys_elem merged_keys).
Qed.

(** The merge of the code does what [merged_into] says. *)
Lemma _update_extracted_merged_into acc text :
  merged_into acc (_update_extracted acc (extract_all text)) text.
Proof.
  unfold merged_into. split; [|split; [|split; [|split; [|split]]]].
  - intros key. apply (update_keys_extends merged_keys).
  - intros x. rewrite _update_extracted_elem by (simpl; tauto).
    by rewrite get_extract_all_upi.
  - intros x. rewrite _update_extracted_elem by (simpl; tauto).
    by rewrite get_extract_all_bank.
  - intros x. rewrite _update_extracted_elem by (simpl; tauto).
    by rewrite get_extract_all_phone.
  - intros x. rewrite _update_extracted_elem by (simpl; tauto).
    by rewrite get_extract_all_urls.
  - intros x. rewrite _update_extracted_elem by (simpl; tauto).
    rewrite get_extract_all_suspicious, list_elem_of_filter, Is_true_true.
    by intuition.
Qed.

End TurnExtraction.

(** C2, as stated, fails in three ways.  A first message that is not a
    scam and carries a phone number leaves the session without any indicator;
    a scam message with a bank code has the code found by the extractor but
    not kept in the cumulative indicators; and a scam message for which no
    client can be built ends in status 500 with nothing merged. *)
Lemma C2_turns_that_merge_nothing :
  (let text := "Hello, my number is 9876543210" in
   let '(_, sessions, _) := Main.handle_message env_ok ∅ "s2" text in
   ConversationalAgent.get "phone_numbers" (extract_all text) = ["9876543210"] /\
   (Session.scam_detected <$> sessions !! "s2") = Some false /\
   (Main.intelligence <$> sessions !! "s2") = Some ∅) /\
  (let '(_, sessions, _) := Main.handle_message env_ok ∅ "s3" ifsc_message in
   ConversationalAgent.get "ifsc_codes" (extract_all ifsc_message) = ["UTIB0000001"] /\
   (Session.scam_detected <$> sessions !! "s3") = Some true /\
   ((fun session => ConversationalAgent.get "ifsc_codes" (Main.intelligence session))
      <$> sessions !! "s3") = Some []) /\
  (let '(response, sessions, _) :=
     Main.handle_message env_no_client ∅ "s4" prize_message in
   ConversationalAgent.get "phone_numbers" (extract_all prize_message)
   = ["9876543210"] /\
   response = Main.HTTPException 500 /\
   (Session.scam_detected <$> sessions !! "s4") = Some true /\
   (Main.intelligence <$> sessions !! "s4") = Some ∅).
Proof. by vm_compute. Qed.

(** C2, amended: extraction belongs to the agent.  On a turn that is
    answered, a session classified as a scam ends with the indicators of the
    text merged into its cumulative dictionary: every list keeps what it held,
    in order, and the lists upi_ids, bank_accounts, phone_numbers, urls and
    suspicious_urls hold in addition exactly what [extract_upi_ids],
    [extract_bank_accounts], [extract_phone_numbers], [extract_urls] and the
    suspicious ones among the URLs give for the text.  A session that is not a
    scam gets the neutral reply and keeps the agent it had (none, for a
    session classified on this or an earlier turn), so nothing is extracted. *)
Theorem C2_extraction_only_in_scam_sessions
    (env : Env) (sessions : gmap string Session.t) (session_id text : string)
    (status reply : string) (sessions' : gmap string Session.t)
    (posted : list Main.Payload) :
  Main.handle_message env sessions session_id text
    = (Main.AgentResponse status reply, sessions', posted) ->
  exists session',
    sessions' !! session_id = Some session' /\
    (Session.scam_detected session' = true ->
     merged_into (known env (entering sessions session_id text))
       (Main.intelligence session') text) /\
    (Session.scam_detected session' = false ->
     Session.agent session' = Session.agent (entering sessions session_id text) /\
     reply = Main.neutral_reply).
Proof.
  intros H.
  destruct (Main.respond env (entering sessions session_id text) text)
    as [[r s1]|] eqn:E.
  - destruct (handle_message_answers _ _ _ _ _ _ E)
      as (session' & posted' & Hh & Hagent & Hscam & _).
    rewrite Hh in H. injection H as _ <- <- _.
    exists session'. split; [apply lookup_insert_eq|].
    destruct (Session.scam_detected (entering sessions session_id text)) eqn:Hs0.
    + destruct (respond_scam env _ text Hs0 (respond_some_client _ _ _ _ Hs0 E))
        as (r' & s1' & E' & _ & Hscam1 & _ & Hint).
      rewrite E in E'. injection E' as <- <-. split.
      * intros _. unfold Main.intelligence in *. rewrite Hagent, Hint.
        apply _update_extracted_merged_into.
      * intros Hf. congruence.
    + rewrite (respond_not_scam _ _ _ Hs0) in E. injection E as <- <-. split.
      * intros Ht. congruence.
      * done.
  - apply handle_message_raises in E. rewrite H in E. done.
Qed.

Lemma C2_extraction_only_in_scam_sessions_witness :
  exists session',
    snd (fst (Main.handle_message env_ok ∅ "s1" prize_message)) !! "s1"
      = Some session' /\
    (Session.scam_detected session' = true ->
     merged_into (known env_ok (entering ∅ "s1" prize_message))
       (Main.intelligence session') prize_message) /\
    (Session.scam_detected session' = false ->
     Session.agent session' = Session.agent (entering ∅ "s1" prize_message) /\
     "Accha, kahan bhejun?" = Main.neutral_reply).
Proof.
  apply (C2_extraction_only_in_scam_sessions env_ok ∅ "s1" prize_message
           "success" "Accha, kahan bhejun?" _
           (snd (Main.handle_message env_ok ∅ "s1" prize_message))).
  by vm_compute.
Defined.



